(** * ht.conduction: conversions between thermal conductivity, resistance,
    resistivity and R-value, and the resistance of a cylindrical shell.

    The Python module [ht/conduction.py] is embedded twice.

    - [Binary64] is the program as Python runs it: every number is an IEEE-754
      binary64 float, every [*] and [/] is rounded, the operator [/] raises
      [ZeroDivisionError] on a zero divisor of either sign, and products and
      quotients overflow to an infinity and underflow to zero.  [math.log] is
      the C library's logarithm; it is a parameter of [R_cylinder] there.
    - [Conduction] is the exact-arithmetic reading: every float is taken as
      the real number it stands for, [*] and [/] are exact and [math.log] is
      the natural logarithm.  Python's two ways of failing are kept (a zero
      divisor, a logarithm outside its domain), but rounding, overflow and
      underflow are not there.  What is proved of [Conduction] is a statement
      about the formulas over exact arithmetic, and is worded so; it is not a
      statement about the floats the program returns.  *)

From Stdlib Require Import Reals Lra Lia ZArith Bool.
From Stdlib Require Import Floats.

(* Decimal float literals denote the nearest binary64 number, as in Python. *)
Set Warnings "-inexact-float".

(** ** Python results: a value or a raised exception *)

Module Py.

Inductive exn : Set :=
| ZeroDivisionError
| ValueError.

Inductive result (A : Type) : Type :=
| Ok (a : A)
| Raise (e : exn).

Arguments Ok {A} a.
Arguments Raise {A} e.

Definition bind {A B : Type} (c : result A) (k : A -> result B) : result B :=
  match c with
  | Ok a => k a
  | Raise e => Raise e
  end.

Definition returns {A : Type} (c : result A) : Prop :=
  exists a, c = Ok a.

End Py.

Import Py.

Declare Scope py_scope.
Delimit Scope py_scope with py.
Notation "x <- c ;; k" := (bind c (fun x => k))
  (at level 61, c at next level, right associativity) : py_scope.

(** ** The module over exact arithmetic *)

Module Conduction.

Local Open Scope R_scope.
Local Open Scope py_scope.

(** Python's [x / y] read over exact arithmetic: the quotient is exact, and
    the divisor is zero only when it is the number zero.  (On floats a
    non-zero product can round to zero; see [Binary64.div].) *)
Definition div (x y : R) : result R :=
  if Req_dec_T y 0 then Raise ZeroDivisionError else Ok (x / y).

(** [math.log] read over exact arithmetic: the natural logarithm on the
    positive numbers, [ValueError] elsewhere. *)
Definition log (x : R) : result R :=
  if Rlt_dec 0 x then Ok (ln x) else Raise ValueError.

Definition pi : R := PI.

(** Modelled from the spec: the constants the module imports from
    [scipy.constants], which is not part of the repository.  Section 4.3 of the
    specification gives their values: one inch is 0.0254 m, one foot 0.3048 m,
    one hour 3600 s, one BTU 1055.05585262 J and one degree Fahrenheit 5/9 K. *)
Definition inch : R := 0.0254.
Definition foot : R := 0.3048.
Definition hour : R := 3600.
Definition Btu : R := 1055.05585262.
Definition degree_Fahrenheit : R := 5 / 9.

(** [k = t/(A*R)] *)
Definition R_to_k (R' t A : R) : result R :=
  k <- div t (A * R') ;;
  Ok k.

(** [R = t/(k*A)] *)
Definition k_to_R (k t A : R) : result R :=
  R' <- div t (k * A) ;;
  Ok R'.

(** [r = 1./k] *)
Definition k_to_thermal_resistivity (k : R) : result R :=
  r <- div 1 k ;;
  Ok r.

(** [k = 1./r] *)
Definition thermal_resistivity_to_k (r : R) : result R :=
  k <- div 1 r ;;
  Ok k.

Definition R_value_to_k (R_value : R) (SI : bool) : result R :=
  r <- (if SI then div R_value inch
        else
          n <- div (R_value * foot ^ 2 * degree_Fahrenheit * hour) Btu ;;
          div n inch) ;;
  k <- thermal_resistivity_to_k r ;;
  Ok k.

Definition k_to_R_value (k : R) (SI : bool) : result R :=
  r <- k_to_thermal_resistivity k ;;
  R_value <- (if SI then Ok (r * inch)
              else
                n <- div (foot ^ 2 * degree_Fahrenheit * hour) Btu ;;
                d <- div n inch ;;
                div r d) ;;
  Ok R_value.

Definition R_cylinder (Di Do k L : R) : result R :=
  q <- div Do Di ;;
  l <- log q ;;
  hA <- div (k * 2 * pi * L) l ;;
  R' <- div 1 hA ;;
  Ok R'.

(** The keyword defaults [A=1.] and [SI=True]. *)
Definition default_A : R := 1.
Definition default_SI : bool := true.

End Conduction.

(** ** The module on binary64 floats *)

Module Binary64.

Local Open Scope float_scope.
Local Open Scope py_scope.

(** Python's [x / y] on floats: both zeros raise, every other divisor gives
    the correctly rounded quotient (an infinity or a NaN included). *)
Definition div (x y : float) : result float :=
  if (y =? 0)%float then Raise ZeroDivisionError else Ok (x / y).

(** What the module imports from [scipy.constants], which is not part of the
    repository: taken as a parameter of the two R-value conversions. *)
Record constants : Set := {
  inch : float;
  foot : float;
  hour : float;
  Btu : float;
  degree_Fahrenheit : float
}.

Definition R_to_k (R' t A : float) : result float :=
  k <- div t (A * R') ;;
  Ok k.

Definition k_to_R (k t A : float) : result float :=
  R' <- div t (k * A) ;;
  Ok R'.

Definition k_to_thermal_resistivity (k : float) : result float :=
  r <- div 1 k ;;
  Ok r.

Definition thermal_resistivity_to_k (r : float) : result float :=
  k <- div 1 r ;;
  Ok k.

(** [foot**2] is read as the rounded product [foot * foot]. *)
Definition R_value_to_k (c : constants) (R_value : float) (SI : bool) : result float :=
  r <- (if SI then div R_value (inch c)
        else
          n <- div (R_value * (foot c * foot c) * degree_Fahrenheit c * hour c) (Btu c) ;;
          div n (inch c)) ;;
  k <- thermal_resistivity_to_k r ;;
  Ok k.

Definition k_to_R_value (c : constants) (k : float) (SI : bool) : result float :=
  r <- k_to_thermal_resistivity k ;;
  R_value <- (if SI then Ok (r * inch c)
              else
                n <- div (foot c * foot c * degree_Fahrenheit c * hour c) (Btu c) ;;
                d <- div n (inch c) ;;
                div r d) ;;
  Ok R_value.

(** [math.pi] is the float nearest to pi. *)
Definition pi : float := 3.141592653589793.

(** [math.log] is the logarithm of the C library, which is not part of the
    repository and whose results are not fixed bit for bit: [R_cylinder]
    takes it as a parameter, a function that returns a float or raises.  What
    a theorem needs to know of [math.log] (it raises [ValueError] at [0.0],
    it is [0.0] at [1.0], its value at one given float) is a hypothesis of
    that theorem. *)
Definition R_cylinder (log : float -> result float) (Di Do k L : float) : result float :=
  q <- div Do Di ;;
  l <- log q ;;
  hA <- div (k * 2 * pi * L) l ;;
  R' <- div 1 hA ;;
  Ok R'.

Definition default_A : float := 1.

(** The values as [scipy.constants] derives them: a foot is twelve inches, an
    hour sixty minutes of sixty seconds, a degree Fahrenheit [1/1.8] K and an
    International Table BTU one pound (7000 grains) times one degree
    Fahrenheit times one IT calorie per gram.  With these the examples of the
    docstrings are reproduced digit for digit. *)
Definition scipy_inch : float := 0.0254.
Definition scipy_grain : float := 64.79891e-6.
Definition scipy_calorie_IT : float := 4.1868.
Definition scipy_gram : float := 1e-3.
Definition scipy_degree_Fahrenheit : float := 1 / 1.8.

Definition scipy : constants := {|
  inch := scipy_inch;
  foot := 12 * scipy_inch;
  hour := 60 * 60;
  Btu := 7000 * scipy_grain * scipy_degree_Fahrenheit * scipy_calorie_IT / scipy_gram;
  degree_Fahrenheit := scipy_degree_Fahrenheit
|}.

(** A float that is neither an infinity nor a NaN. *)
Definition is_finite (x : float) : bool :=
  negb (is_infinity x) && negb (is_nan x).

End Binary64.

(** ** Series used to enclose [ln]

    For [0 < x < 1], [ln((1+x)/(1-x))] is twice the sum of the odd powers
    [x^(2i+1)/(2i+1)]; the partial sums and the derivative of what they leave
    out are named here. *)

Module Series.

Local Open Scope R_scope.

Definition atanh_sum (n : nat) (x : R) : R :=
  sum_f_R0 (fun i => x ^ (2 * i + 1) / INR (2 * i + 1)) n.

Definition geometric_sum (n : nat) (x : R) : R :=
  sum_f_R0 (fun i => x ^ (2 * i)) n.

Definition ln_gap (n : nat) (x : R) : R :=
  ln (1 + x) - ln (1 - x) - 2 * atanh_sum n x.

Definition ln_gap' (n : nat) (x : R) : R :=
  / (1 + x) + / (1 - x) - 2 * geometric_sum n x.

End Series.

(** ** The real number a float stands for

    Used to say that a float is the one nearest to a real number: the
    logarithm of [math.log] is not computed here, but the floats that the
    examples need of it are shown to be the nearest to the true logarithms. *)

Module Rounding.

Local Open Scope R_scope.

(** The value of a finite float, sign times mantissa times a power of two
    (and 0 for an infinity or a NaN, which have none). *)
Definition to_R (x : float) : R :=
  match Prim2SF x with
  | S754_finite s m e => (if s then - IZR (Z.pos m) else IZR (Z.pos m)) * powerRZ 2 e
  | _ => 0
  end.

(** [l] is the float nearest to the real number [y]: [y] is nearer to [l]
    than half the way to the next float above and to the next float below. *)
Definition nearest (y : R) (l : float) : Prop :=
  2 * Rabs (y - to_R l) < to_R (next_up l) - to_R l
  /\ 2 * Rabs (y - to_R l) < to_R l - to_R (next_down l).

End Rounding.

(** * Properties *)

(** ** The two primitives over exact arithmetic *)

Section Primitives.

Import Conduction.
Local Open Scope R_scope.

Lemma div_nonzero (x y : R) : y <> 0 -> div x y = Ok (x / y).
Proof.
  intros Hy. unfold div.
  destruct (Req_dec_T y 0) as [E | _]; [contradiction | reflexivity].
Qed.

Lemma div_zero (x : R) : div x 0 = Raise ZeroDivisionError.
Proof.
  unfold div. destruct (Req_dec_T 0 0) as [_ | N]; [reflexivity | now elim N].
Qed.

Lemma div_raises_iff (x y : R) : div x y = Raise ZeroDivisionError <-> y = 0.
Proof.
  split.
  - unfold div. destruct (Req_dec_T y 0) as [E | _]; [trivial | discriminate].
  - intros ->. apply div_zero.
Qed.

Lemma div_never_ValueError (x y : R) : div x y <> Raise ValueError.
Proof.
  unfold div. destruct (Req_dec_T y 0); discriminate.
Qed.

Lemma log_pos (x : R) : 0 < x -> log x = Ok (ln x).
Proof.
  intros Hx. unfold log.
  destruct (Rlt_dec 0 x) as [_ | N]; [reflexivity | contradiction].
Qed.

Lemma log_nonpos (x : R) : x <= 0 -> log x = Raise ValueError.
Proof.
  intros Hx. unfold log. destruct (Rlt_dec 0 x) as [P | _]; [lra | reflexivity].
Qed.

Lemma bind_Ok {A B : Type} (a : A) (k : A -> result B) : bind (Ok a) k = k a.
Proof. reflexivity. Qed.

Lemma bind_Raise {A B : Type} (e : exn) (k : A -> result B) :
  bind (Raise e) k = Raise e.
Proof. reflexivity. Qed.

Lemma Rdiv_neq_0 (a b : R) : a <> 0 -> b <> 0 -> a / b <> 0.
Proof.
  intros Ha Hb. unfold Rdiv.
  apply Rmult_integral_contrapositive_currified;
    [exact Ha | now apply Rinv_neq_0_compat].
Qed.

Lemma Rdiv_eq_1 (a b : R) : b <> 0 -> a / b = 1 -> a = b.
Proof.
  intros Hb H. replace a with (a / b * b) by now field. rewrite H. ring.
Qed.

Lemma Rdiv_pos_pos (a b : R) : 0 < a -> 0 < b -> 0 < a / b.
Proof.
  intros Ha Hb. unfold Rdiv.
  apply Rmult_lt_0_compat; [exact Ha | now apply Rinv_0_lt_compat].
Qed.

Lemma ln_swap (a b : R) : 0 < a -> 0 < b -> ln (a / b) = - ln (b / a).
Proof.
  intros Ha Hb. rewrite <- ln_Rinv by now apply Rdiv_pos_pos.
  f_equal. field. split; lra.
Qed.

End Primitives.

(** Side conditions [y <> 0] met while a call is evaluated. *)
Ltac nonzero :=
  solve [ assumption
        | lra
        | unfold Conduction.inch, Conduction.foot, Conduction.hour, Conduction.Btu,
            Conduction.degree_Fahrenheit; lra
        | apply Rdiv_neq_0; nonzero
        | apply Rmult_integral_contrapositive_currified; nonzero
        | apply Rinv_neq_0_compat; nonzero
        | apply ln_neq_0; lra
        | apply PI_neq0 ].

(** Runs the divisions of a call: those by zero raise, those whose divisor is
    visibly non-zero return their quotient. *)
Ltac run_div :=
  repeat first [ rewrite div_zero
               | rewrite div_nonzero by nonzero
               | rewrite bind_Ok
               | rewrite bind_Raise ].

(** ** The binary64 model *)

Section Binary64Facts.

Local Open Scope float_scope.
Local Open Scope py_scope.

Lemma binary64_div_raises_iff (x y : float) :
  Binary64.div x y = Raise ZeroDivisionError <-> (y =? 0) = true.
Proof.
  unfold Binary64.div.
  destruct (y =? 0); split; intros H; try reflexivity; discriminate.
Qed.

Lemma binary64_k_to_thermal_resistivity_raises_iff (k : float) :
  Binary64.k_to_thermal_resistivity k = Raise ZeroDivisionError <-> (k =? 0) = true.
Proof.
  unfold Binary64.k_to_thermal_resistivity, Binary64.div.
  destruct (k =? 0); split; intros H; try reflexivity; discriminate.
Qed.

Lemma binary64_thermal_resistivity_to_k_raises_iff (r : float) :
  Binary64.thermal_resistivity_to_k r = Raise ZeroDivisionError <-> (r =? 0) = true.
Proof.
  unfold Binary64.thermal_resistivity_to_k, Binary64.div.
  destruct (r =? 0); split; intros H; try reflexivity; discriminate.
Qed.

(** Rounded multiplication commutes: the specification of [*] is symmetric
    in its operands. *)
Lemma SFmul_comm (prec emax : Z) (x y : spec_float) :
  SFmul prec emax x y = SFmul prec emax y x.
Proof.
  destruct x as [sx | sx | | sx mx ex], y as [sy | sy | | sy my ey]; cbn [SFmul];
    try reflexivity; try (now rewrite xorb_comm).
  now rewrite xorb_comm, Pos.mul_comm, Z.add_comm.
Qed.

Lemma binary64_mul_comm (x y : float) : x * y = y * x.
Proof.
  apply Prim2SF_inj. rewrite !mul_spec. apply SFmul_comm.
Qed.

(** Rounding does not look at the sign. *)
Lemma binary_round_aux_opp (prec emax : Z) (s : bool) (m e : Z) (l : location) :
  SFopp (binary_round_aux prec emax s m e l)
  = binary_round_aux prec emax (negb s) m e l.
Proof.
  unfold binary_round_aux.
  destruct (shr_fexp prec emax m e l) as [mrs' e'].
  destruct (shr_fexp prec emax _ e' loc_Exact) as [mrs'' e''].
  destruct (shr_m mrs''); try reflexivity.
  destruct (Z.leb e'' (emax - prec)); reflexivity.
Qed.

Lemma SFdiv_opp_r (prec emax : Z) (x y : spec_float) :
  SFdiv prec emax x (SFopp y) = SFopp (SFdiv prec emax x y).
Proof.
  destruct x as [sx | sx | | sx mx ex], y as [sy | sy | | sy my ey];
    cbn [SFdiv SFopp];
    try destruct (SFdiv_core_binary _ _ _ _ _ _) as [[mz ez] lz];
    rewrite ?binary_round_aux_opp, ?negb_xorb_r; reflexivity.
Qed.

Lemma SFdiv_opp_l (prec emax : Z) (x y : spec_float) :
  SFdiv prec emax (SFopp x) y = SFopp (SFdiv prec emax x y).
Proof.
  destruct x as [sx | sx | | sx mx ex], y as [sy | sy | | sy my ey];
    cbn [SFdiv SFopp];
    try destruct (SFdiv_core_binary _ _ _ _ _ _) as [[mz ez] lz];
    rewrite ?binary_round_aux_opp, ?negb_xorb_l; reflexivity.
Qed.

Lemma SFmul_opp_r (prec emax : Z) (x y : spec_float) :
  SFmul prec emax x (SFopp y) = SFopp (SFmul prec emax x y).
Proof.
  destruct x as [sx | sx | | sx mx ex], y as [sy | sy | | sy my ey];
    cbn [SFmul SFopp];
    rewrite ?binary_round_aux_opp, ?negb_xorb_r; reflexivity.
Qed.

Lemma SFeqb_opp_zero (x : spec_float) :
  SFeqb (SFopp x) (S754_zero false) = SFeqb x (S754_zero false).
Proof.
  destruct x as [[ | ] | [ | ] | | [ | ] mx ex]; reflexivity.
Qed.

Lemma binary64_div_opp_r (x y : float) : x / (- y) = - (x / y).
Proof.
  apply Prim2SF_inj.
  rewrite !div_spec, !FloatAxioms.opp_spec, div_spec. apply SFdiv_opp_r.
Qed.

Lemma binary64_div_opp_l (x y : float) : (- x) / y = - (x / y).
Proof.
  apply Prim2SF_inj.
  rewrite !div_spec, !FloatAxioms.opp_spec, div_spec. apply SFdiv_opp_l.
Qed.

Lemma binary64_mul_opp_r (x y : float) : x * (- y) = - (x * y).
Proof.
  apply Prim2SF_inj.
  rewrite !mul_spec, !FloatAxioms.opp_spec, mul_spec. apply SFmul_opp_r.
Qed.

Lemma binary64_eqb_opp_zero (y : float) : (- y =? 0) = (y =? 0).
Proof.
  rewrite !FloatAxioms.eqb_spec, FloatAxioms.opp_spec. apply SFeqb_opp_zero.
Qed.

Lemma binary64_mul_nan_r (x : float) : x * nan = nan.
Proof.
  apply Prim2SF_inj. rewrite mul_spec.
  change (Prim2SF nan) with S754_nan. destruct (Prim2SF x); reflexivity.
Qed.

Lemma binary64_div_nan_r (x : float) : x / nan = nan.
Proof.
  apply Prim2SF_inj. rewrite div_spec.
  change (Prim2SF nan) with S754_nan. destruct (Prim2SF x); reflexivity.
Qed.

Lemma binary64_mul_opp_l (x y : float) : (- x) * y = - (x * y).
Proof.
  now rewrite (binary64_mul_comm (- x) y), binary64_mul_opp_r, (binary64_mul_comm y x).
Qed.

(** A negative float is not a zero. *)
Lemma binary64_negative_nonzero (d : float) : (d <? 0) = true -> (d =? 0) = false.
Proof.
  rewrite ltb_spec, FloatAxioms.eqb_spec.
  destruct (Prim2SF d) as [s | s | | s m e]; try destruct s; cbn; congruence.
Qed.

(** A float that is neither a zero, an infinity nor a NaN has a mantissa and
    an exponent. *)
Lemma binary64_finite_nonzero (x : float) :
  (x =? 0) = false -> Binary64.is_finite x = true ->
  exists s m e, Prim2SF x = S754_finite s m e.
Proof.
  intros Hz Hf. unfold Binary64.is_finite, is_infinity, is_nan in Hf.
  rewrite !FloatAxioms.eqb_spec, abs_spec in Hf.
  rewrite FloatAxioms.eqb_spec in Hz.
  destruct (Prim2SF x) as [s | s | | s m e].
  - destruct s; discriminate Hz.
  - destruct s; discriminate Hf.
  - discriminate Hf.
  - now exists s, m, e.
Qed.

(** The quotient of a finite non-zero number by itself is exactly one: the
    division of the mantissas leaves no remainder, so nothing is rounded. *)
Lemma SFdiv_self (s : bool) (m : positive) (e : Z) :
  SF64div (S754_finite s m e) (S754_finite s m e) = Prim2SF 1.
Proof.
  unfold SF64div, SFdiv, SFdiv_core_binary.
  rewrite Z.sub_diag, Z.sub_diag.
  change (Z.min (fexp prec emax 0) 0) with (-53)%Z.
  change (0 - -53)%Z with 53%Z. cbv beta iota zeta.
  rewrite Z.shiftl_mul_pow2 by lia.
  assert (Hd : Z.div_eucl (Z.pos m * 2 ^ 53) (Z.pos m) = ((2 ^ 53)%Z, 0%Z)).
  { pose proof (Z.div_mul (2 ^ 53) (Z.pos m)) as Hq.
    pose proof (Z.mod_mul (2 ^ 53) (Z.pos m)) as Hr.
    unfold Z.div, Z.modulo in Hq, Hr.
    rewrite (Z.mul_comm (Z.pos m)).
    destruct (Z.div_eucl (2 ^ 53 * Z.pos m) (Z.pos m)) as [q r].
    cbn [fst snd] in Hq, Hr. rewrite Hq, Hr by discriminate. reflexivity. }
  rewrite Hd.
  assert (Hl : new_location (Z.pos m) 0 = loc_Exact).
  { unfold new_location, new_location_even, new_location_odd.
    now destruct (Z.even (Z.pos m)). }
  rewrite Hl. rewrite xorb_nilpotent. reflexivity.
Qed.

Lemma binary64_div_self (x : float) :
  (x =? 0) = false -> Binary64.is_finite x = true -> x / x = 1.
Proof.
  intros Hz Hf. destruct (binary64_finite_nonzero x Hz Hf) as (s & m & e & E).
  apply Prim2SF_inj. rewrite div_spec, E. apply SFdiv_self.
Qed.

(** Zero divided by anything is a zero or a NaN. *)
Lemma binary64_div_zero_l (l : float) : (0 / l =? 0) = true \/ 0 / l = nan.
Proof.
  destruct (Prim2SF l) as [s | s | | s m e] eqn:E.
  - right. apply Prim2SF_inj. rewrite div_spec, E. reflexivity.
  - left. rewrite FloatAxioms.eqb_spec, div_spec, E. now destruct s.
  - right. apply Prim2SF_inj. rewrite div_spec, E. reflexivity.
  - left. rewrite FloatAxioms.eqb_spec, div_spec, E. now destruct s.
Qed.

Lemma binary64_div_zero_pos (l : float) : (0 <? l) = true -> 0 / l = 0.
Proof.
  intros H. rewrite ltb_spec in H.
  apply Prim2SF_inj. rewrite div_spec.
  destruct (Prim2SF l) as [s | s | | s m e]; try discriminate H;
    destruct s; try discriminate H; reflexivity.
Qed.

(** The four plain conversions, in full: the divisor is tested, then the
    rounded quotient is returned. *)
Lemma binary64_R_to_k_cases (x t A : float) :
  Binary64.R_to_k x t A
  = if A * x =? 0 then Raise ZeroDivisionError else Ok (t / (A * x)).
Proof.
  unfold Binary64.R_to_k, Binary64.div. now destruct (A * x =? 0).
Qed.

Lemma binary64_k_to_R_cases (k t A : float) :
  Binary64.k_to_R k t A
  = if k * A =? 0 then Raise ZeroDivisionError else Ok (t / (k * A)).
Proof.
  unfold Binary64.k_to_R, Binary64.div. now destruct (k * A =? 0).
Qed.

Lemma binary64_k_to_thermal_resistivity_cases (k : float) :
  Binary64.k_to_thermal_resistivity k
  = if k =? 0 then Raise ZeroDivisionError else Ok (1 / k).
Proof.
  unfold Binary64.k_to_thermal_resistivity, Binary64.div. now destruct (k =? 0).
Qed.

Lemma binary64_thermal_resistivity_to_k_cases (r : float) :
  Binary64.thermal_resistivity_to_k r
  = if r =? 0 then Raise ZeroDivisionError else Ok (1 / r).
Proof.
  unfold Binary64.thermal_resistivity_to_k, Binary64.div. now destruct (r =? 0).
Qed.

(** The scaled resistivity [r] of [R_value_to_k], and the Imperial unit of
    R-value by which [k_to_R_value] divides, as the code rounds them. *)
Lemma binary64_R_value_to_k_cases (c : Binary64.constants) (x : float) (SI : bool) :
  (Binary64.inch c =? 0) = false -> (Binary64.Btu c =? 0) = false ->
  Binary64.R_value_to_k c x SI
  = let r := if SI then x / Binary64.inch c
             else x * (Binary64.foot c * Binary64.foot c)
                  * Binary64.degree_Fahrenheit c * Binary64.hour c
                  / Binary64.Btu c / Binary64.inch c in
    if r =? 0 then Raise ZeroDivisionError else Ok (1 / r).
Proof.
  intros Hi Hb.
  unfold Binary64.R_value_to_k, Binary64.thermal_resistivity_to_k, Binary64.div.
  destruct SI; rewrite ?Hi, ?Hb; cbn [bind]; rewrite ?Hi; cbn [bind]; cbv zeta;
    match goal with |- context [if ?b then _ else _] => destruct b end; reflexivity.
Qed.

Lemma binary64_k_to_R_value_cases (c : Binary64.constants) (k : float) (SI : bool) :
  (Binary64.inch c =? 0) = false -> (Binary64.Btu c =? 0) = false ->
  Binary64.k_to_R_value c k SI
  = let d := Binary64.foot c * Binary64.foot c
             * Binary64.degree_Fahrenheit c * Binary64.hour c
             / Binary64.Btu c / Binary64.inch c in
    if k =? 0 then Raise ZeroDivisionError
    else if SI then Ok (1 / k * Binary64.inch c)
         else if d =? 0 then Raise ZeroDivisionError else Ok (1 / k / d).
Proof.
  intros Hi Hb.
  unfold Binary64.k_to_R_value, Binary64.k_to_thermal_resistivity, Binary64.div.
  destruct (k =? 0); [reflexivity | ].
  destruct SI; cbn [bind]; rewrite ?Hb; cbn [bind]; rewrite ?Hi; cbn [bind]; cbv zeta;
    [reflexivity | ].
  match goal with |- context [if ?b then _ else _] => destruct b end; reflexivity.
Qed.

Lemma scipy_inch_nonzero : (Binary64.inch Binary64.scipy =? 0) = false.
Proof. reflexivity. Qed.

Lemma scipy_Btu_nonzero : (Binary64.Btu Binary64.scipy =? 0) = false.
Proof. reflexivity. Qed.

Lemma scipy_imperial_unit_nonzero :
  (Binary64.foot Binary64.scipy * Binary64.foot Binary64.scipy
   * Binary64.degree_Fahrenheit Binary64.scipy * Binary64.hour Binary64.scipy
   / Binary64.Btu Binary64.scipy / Binary64.inch Binary64.scipy =? 0) = false.
Proof. reflexivity. Qed.

(** [R_cylinder] in full: which step raises, and what is returned when none
    does.  The logarithm is any function [log]. *)
Lemma binary64_R_cylinder_cases (log : float -> result float) (Di Do k L : float) :
  Binary64.R_cylinder log Di Do k L
  = if Di =? 0 then Raise ZeroDivisionError
    else match log (Do / Di) with
         | Raise e => Raise e
         | Ok l =>
             if l =? 0 then Raise ZeroDivisionError
             else if k * 2 * Binary64.pi * L / l =? 0 then Raise ZeroDivisionError
                  else Ok (1 / (k * 2 * Binary64.pi * L / l))
         end.
Proof.
  unfold Binary64.R_cylinder, Binary64.div.
  destruct (Di =? 0); [reflexivity | ]. cbn [bind].
  destruct (log (Do / Di)) as [l | e]; [ | reflexivity]. cbn [bind].
  destruct (l =? 0); [reflexivity | ]. cbn [bind].
  now destruct (k * 2 * Binary64.pi * L / l =? 0).
Qed.

(** Equal diameters, finite and not zero: [Do/Di] is exactly [1.0], and with
    [log 1.0 = 0.0] the division by the logarithm raises. *)
Lemma binary64_R_cylinder_equal_diameters
    (log : float -> result float) (D k L : float) :
  (D =? 0) = false -> Binary64.is_finite D = true -> log 1 = Ok 0 ->
  Binary64.R_cylinder log D D k L = Raise ZeroDivisionError.
Proof.
  intros Hz Hf Hlog. rewrite binary64_R_cylinder_cases, Hz.
  now rewrite (binary64_div_self D Hz Hf), Hlog.
Qed.

(** A numerator that has underflowed to zero: whatever the logarithm is, no
    number comes back. *)
Lemma binary64_R_cylinder_zero_numerator
    (log : float -> result float) (Di Do k L l : float) :
  k * 2 * Binary64.pi * L = 0 -> log (Do / Di) = Ok l -> (0 <? l) = true ->
  Binary64.R_cylinder log Di Do k L = Raise ZeroDivisionError.
Proof.
  intros Hn Hlog Hl. rewrite binary64_R_cylinder_cases, Hlog, Hn.
  rewrite (binary64_div_zero_pos l Hl).
  destruct (Di =? 0); [reflexivity | ].
  destruct (l =? 0); reflexivity.
Qed.

(** The docstring's shell on floats, in both orders of the diameters, given
    the two values of [math.log] that are needed: [Do/Di] is
    [1.1111111111111112] and [Di/Do] is [0.9]. *)
Lemma binary64_R_cylinder_docstring_shell (log : float -> result float) :
  log 1.1111111111111112 = Ok 0.10536051565782635 ->
  log 0.9 = Ok (-0.10536051565782628) ->
  Binary64.R_cylinder log 0.9 1 20 10 = Ok 8.38432343682705e-05
  /\ Binary64.R_cylinder log 1 0.9 20 10 = Ok (-8.384323436827045e-05).
Proof.
  intros H1 H2. rewrite !binary64_R_cylinder_cases.
  change (1 / 0.9) with 1.1111111111111112.
  change (0.9 / 1) with 0.9.
  rewrite H1, H2. split; reflexivity.
Qed.

(** A quotient of diameters that underflows to [0.0] is outside the domain
    of the logarithm. *)
Lemma binary64_R_cylinder_ratio_underflow (log : float -> result float) (k L : float) :
  log 0 = Raise ValueError ->
  Binary64.R_cylinder log 1e200 1e-200 k L = Raise ValueError.
Proof.
  intros H. rewrite binary64_R_cylinder_cases.
  change (1e-200 / 1e200) with 0. now rewrite H.
Qed.

Lemma scipy_k_to_R_value_cases (k : float) (SI : bool) :
  Binary64.k_to_R_value Binary64.scipy k SI
  = if k =? 0 then Raise ZeroDivisionError
    else Ok (if SI then 1 / k * Binary64.inch Binary64.scipy
             else 1 / k / (Binary64.foot Binary64.scipy * Binary64.foot Binary64.scipy
                           * Binary64.degree_Fahrenheit Binary64.scipy
                           * Binary64.hour Binary64.scipy
                           / Binary64.Btu Binary64.scipy / Binary64.inch Binary64.scipy)).
Proof.
  rewrite (binary64_k_to_R_value_cases Binary64.scipy k SI
             scipy_inch_nonzero scipy_Btu_nonzero).
  cbv zeta. rewrite scipy_imperial_unit_nonzero.
  destruct (k =? 0); [reflexivity | ]. now destruct SI.
Qed.

(** The docstring examples of the four plain conversions hold bit for bit:
    [R_to_k(R=0.05, t=0.025)] is [0.5], [k_to_R(k=0.5, t=0.025)] is [0.05],
    [k_to_thermal_resistivity(0.25)] is [4.0] and
    [thermal_resistivity_to_k(4)] is [0.25]. *)
Lemma binary64_docstring_resistance :
  Binary64.R_to_k 0.05 0.025 Binary64.default_A = Ok 0.5
  /\ Binary64.k_to_R 0.5 0.025 Binary64.default_A = Ok 0.05
  /\ Binary64.k_to_thermal_resistivity 0.25 = Ok 4
  /\ Binary64.thermal_resistivity_to_k 4 = Ok 0.25.
Proof. repeat split. Qed.

(** The docstring examples of the R-value conversions hold bit for bit with
    the constants as scipy derives them: [R_value_to_k(0.12)] is
    [0.2116666666666667], [R_value_to_k(0.71, SI=False)] is
    [0.20313787163983468], their quotient at 1 is [5.678263341113488], and the
    two round trips give [0.11999999999999998] and [0.7099999999999999]. *)
Lemma binary64_docstring_R_value :
  Binary64.R_value_to_k Binary64.scipy 0.12 true = Ok 0.2116666666666667
  /\ Binary64.R_value_to_k Binary64.scipy 0.71 false = Ok 0.20313787163983468
  /\ (a <- Binary64.R_value_to_k Binary64.scipy 1 false ;;
      b <- Binary64.R_value_to_k Binary64.scipy 1 true ;;
      Binary64.div a b) = Ok 5.678263341113488
  /\ (k <- Binary64.R_value_to_k Binary64.scipy 0.12 true ;;
      Binary64.k_to_R_value Binary64.scipy k true) = Ok 0.11999999999999998
  /\ (k <- Binary64.R_value_to_k Binary64.scipy 0.71 false ;;
      Binary64.k_to_R_value Binary64.scipy k false) = Ok 0.7099999999999999.
Proof. repeat split. Qed.

(** Far outside the physical range a quotient underflows to zero or overflows
    to an infinity, and a round trip is lost: [R_to_k(1e300, 1e-300)] is
    [0.0], on which [k_to_R] raises; [k_to_thermal_resistivity(1e-320)] is
    infinite and converts back to [0.0]. *)
Lemma binary64_round_trips_out_of_range :
  Binary64.R_to_k 1e300 1e-300 Binary64.default_A = Ok 0
  /\ (k <- Binary64.R_to_k 1e300 1e-300 Binary64.default_A ;;
      Binary64.k_to_R k 1e-300 Binary64.default_A) = Raise ZeroDivisionError
  /\ Binary64.k_to_thermal_resistivity 1e-320 = Ok infinity
  /\ (r <- Binary64.k_to_thermal_resistivity 1e-320 ;;
      Binary64.thermal_resistivity_to_k r) = Ok 0.
Proof. repeat split. Qed.

End Binary64Facts.

(** ** The reciprocal of a finite float is not a zero

    [1/x] underflows to a zero only for an infinite [x]: the largest finite
    float is below [2^1024], and [2^-1024] is far above the smallest positive
    float, [2^-1074].  This is read off the IEEE specification of the
    division: the quotient of the mantissas is positive, its exponent is not
    below the smallest one, and rounding such a number does not give zero. *)

Section RoundingToZero.

Local Open Scope Z_scope.

(** [digits2_pos p] is the number of bits of [p]. *)
Lemma digits2_pos_bounds (p : positive) :
  2 ^ (Z.pos (digits2_pos p) - 1) <= Z.pos p < 2 ^ Z.pos (digits2_pos p).
Proof.
  induction p as [p IH | p IH | ]; cbn [digits2_pos].
  - rewrite Pos2Z.inj_succ, (Pos2Z.inj_xI p).
    replace (Z.succ (Z.pos (digits2_pos p)) - 1) with (Z.succ (Z.pos (digits2_pos p) - 1))
      by lia.
    rewrite !Z.pow_succ_r by lia.
    set (a := 2 ^ (Z.pos (digits2_pos p) - 1)) in *.
    set (b := 2 ^ Z.pos (digits2_pos p)) in *. clearbody a b. lia.
  - rewrite Pos2Z.inj_succ, (Pos2Z.inj_xO p).
    replace (Z.succ (Z.pos (digits2_pos p)) - 1) with (Z.succ (Z.pos (digits2_pos p) - 1))
      by lia.
    rewrite !Z.pow_succ_r by lia.
    set (a := 2 ^ (Z.pos (digits2_pos p) - 1)) in *.
    set (b := 2 ^ Z.pos (digits2_pos p)) in *. clearbody a b. lia.
  - cbn. lia.
Qed.

Lemma shr_1_m (mrs : shr_record) :
  0 <= shr_m mrs -> shr_m (shr_1 mrs) = shr_m mrs / 2.
Proof.
  destruct mrs as [m r s]. cbn [shr_m]. intros H.
  destruct m as [ | [p | p | ] | p]; cbn [shr_1 shr_m]; try lia.
  - reflexivity.
  - rewrite (Pos2Z.inj_xI p). apply Z.div_unique with 1; lia.
  - rewrite (Pos2Z.inj_xO p). apply Z.div_unique with 0; lia.
  - reflexivity.
Qed.

Lemma iter_shr_1_m (p : positive) (mrs : shr_record) :
  0 <= shr_m mrs -> shr_m (iter_pos shr_1 p mrs) = shr_m mrs / 2 ^ Z.pos p.
Proof.
  revert mrs. induction p as [p IH | p IH | ]; intros mrs H; cbn [iter_pos].
  - assert (H1 : 0 <= shr_m (shr_1 mrs)) by (rewrite shr_1_m by exact H; apply Z.div_pos; lia).
    assert (H2 : 0 <= shr_m (iter_pos shr_1 p (shr_1 mrs)))
      by (rewrite IH by exact H1; apply Z.div_pos; [exact H1 | apply Z.pow_pos_nonneg; lia]).
    rewrite IH by exact H2. rewrite IH by exact H1. rewrite shr_1_m by exact H.
    rewrite !Z.div_div by (try apply Z.pow_pos_nonneg; lia).
    f_equal. rewrite Pos2Z.inj_xI.
    rewrite <- Z.pow_add_r by lia.
    replace (2 * Z.pos p + 1) with (Z.succ (Z.pos p + Z.pos p)) by lia.
    rewrite Z.pow_succ_r by lia. reflexivity.
  - assert (H2 : 0 <= shr_m (iter_pos shr_1 p mrs))
      by (rewrite IH by exact H; apply Z.div_pos; [exact H | apply Z.pow_pos_nonneg; lia]).
    rewrite IH by exact H2. rewrite IH by exact H.
    rewrite !Z.div_div by (try apply Z.pow_pos_nonneg; lia).
    f_equal. rewrite Pos2Z.inj_xO.
    rewrite <- Z.pow_add_r by lia. f_equal. lia.
  - rewrite shr_1_m by exact H. reflexivity.
Qed.

Lemma shr_record_of_loc_m (m : Z) (l : location) : shr_m (shr_record_of_loc m l) = m.
Proof. destruct l as [ | [ | | ]]; reflexivity. Qed.

(** Above the smallest exponent a positive mantissa stays positive when it
    is brought to its format. *)
Lemma shr_fexp_pos (m e : Z) (l : location) :
  0 < m -> -1074 <= e ->
  0 < shr_m (fst (shr_fexp prec emax m e l))
  /\ -1074 <= snd (shr_fexp prec emax m e l).
Proof.
  intros Hm He. unfold shr_fexp, shr.
  destruct m as [ | p | p]; try lia. cbn [Zdigits2].
  pose proof (digits2_pos_bounds p) as [Hlo Hhi].
  set (d := Z.pos (digits2_pos p)) in *.
  unfold fexp, emin. change (3 - emax - prec) with (-1074). change prec with 53.
  destruct (Z.max (d + e - 53) (-1074) - e) as [ | n | n] eqn:En; cbn [fst snd].
  - rewrite shr_record_of_loc_m. lia.
  - assert (Hn : Z.pos n = d - 53) by lia.
    rewrite iter_shr_1_m by (rewrite shr_record_of_loc_m; lia).
    rewrite shr_record_of_loc_m. split; [ | lia].
    apply Z.lt_le_trans with (2 ^ 52); [reflexivity | ].
    apply Z.div_le_lower_bound; [apply Z.pow_pos_nonneg; lia | ].
    rewrite Hn, <- Z.pow_add_r by lia.
    replace (d - 53 + 52) with (d - 1) by lia. exact Hlo.
  - rewrite shr_record_of_loc_m. lia.
Qed.

Lemma round_nearest_even_ge (m : Z) (l : location) : m <= round_nearest_even m l.
Proof.
  destruct l as [ | [ | | ]]; cbn [round_nearest_even]; try lia.
  destruct (Z.even m); lia.
Qed.

(** A positive mantissa above the smallest exponent is not rounded to
    zero. *)
Lemma binary_round_aux_nonzero (s : bool) (m e : Z) (l : location) :
  0 < m -> -1074 <= e ->
  SFeqb (binary_round_aux prec emax s m e l) (S754_zero false) = false.
Proof.
  intros Hm He. unfold binary_round_aux.
  pose proof (shr_fexp_pos m e l Hm He) as [H1 H2].
  destruct (shr_fexp prec emax m e l) as [mrs' e']. cbn [fst snd] in H1, H2.
  pose proof (round_nearest_even_ge (shr_m mrs') (loc_of_shr_record mrs')) as Hr.
  set (m1 := round_nearest_even (shr_m mrs') (loc_of_shr_record mrs')) in *.
  assert (Hm1 : 0 < m1) by lia.
  pose proof (shr_fexp_pos m1 e' loc_Exact Hm1 H2) as [H3 _].
  destruct (shr_fexp prec emax m1 e' loc_Exact) as [mrs'' e'']. cbn [fst] in H3.
  destruct (shr_m mrs'') as [ | q | q]; try lia.
  destruct (e'' <=? emax - prec); now destruct s.
Qed.

(** The reciprocal of a finite float is not a zero: the largest float is
    below [2^1024], and [2^-1024] is well above the smallest positive
    float. *)
Lemma SFdiv_one_nonzero (s : bool) (m : positive) (e : Z) :
  bounded prec emax m e = true ->
  SFeqb (SF64div (Prim2SF 1) (S754_finite s m e)) (S754_zero false) = false.
Proof.
  intros Hb. unfold bounded, canonical_mantissa, fexp, emin in Hb.
  change (3 - emax - prec) with (-1074) in Hb. change (emax - prec) with 971 in Hb.
  change prec with 53 in Hb.
  apply andb_true_iff in Hb. destruct Hb as [Hc He].
  apply Z.eqb_eq in Hc. apply Z.leb_le in He.
  pose proof (digits2_pos_bounds m) as [Hlo Hhi].
  set (d := Z.pos (digits2_pos m)) in *.
  assert (Hd : 1 <= d <= 53) by lia.
  change (Prim2SF 1) with (S754_finite false 4503599627370496 (-52)).
  unfold SF64div, SFdiv, SFdiv_core_binary.
  change (Zdigits2 (Z.pos 4503599627370496)) with 53. cbn [Zdigits2]. fold d.
  unfold fexp, emin. change (3 - emax - prec) with (-1074). change prec with 53.
  set (e' := Z.min (Z.max (53 + -52 - (d + e) - 53) (-1074)) (-52 - e)).
  assert (He' : -1074 <= e' /\ 0 < -52 - e - e') by lia.
  destruct (-52 - e - e') as [ | n | n] eqn:En; try lia.
  rewrite Z.shiftl_mul_pow2 by lia.
  assert (Hq : 0 < (4503599627370496 * 2 ^ Z.pos n) / Z.pos m).
  { apply Z.div_str_pos. split; [lia | ].
    apply Z.le_trans with (2 ^ 53).
    - apply Z.lt_le_incl, Z.lt_le_trans with (2 ^ d); [exact Hhi | ].
      apply Z.pow_le_mono_r; lia.
    - change (2 ^ 53) with (4503599627370496 * 2 ^ 1).
      apply Z.mul_le_mono_nonneg_l; [lia | ].
      apply Z.pow_le_mono_r; lia. }
  unfold Z.div in Hq.
  destruct (Z.div_eucl (4503599627370496 * 2 ^ Z.pos n) (Z.pos m)) as [q r].
  cbn [fst] in Hq.
  apply binary_round_aux_nonzero; lia.
Qed.

End RoundingToZero.

Section Binary64Reciprocal.

Local Open Scope float_scope.
Local Open Scope py_scope.

Lemma binary64_reciprocal_nonzero (x : float) :
  (x =? 0) = false -> Binary64.is_finite x = true -> (1 / x =? 0) = false.
Proof.
  intros Hz Hf. destruct (binary64_finite_nonzero x Hz Hf) as (s & m & e & E).
  pose proof (Prim2SF_valid x) as Hv. rewrite E in Hv. cbn [valid_binary] in Hv.
  rewrite FloatAxioms.eqb_spec, div_spec, E.
  now apply SFdiv_one_nonzero.
Qed.

Lemma binary64_reciprocal_zero_iff (x : float) :
  (x =? 0) = false -> ((1 / x =? 0) = true <-> is_infinity x = true).
Proof.
  intros Hz. unfold is_infinity.
  rewrite !FloatAxioms.eqb_spec, abs_spec, div_spec.
  rewrite FloatAxioms.eqb_spec in Hz.
  pose proof (Prim2SF_valid x) as Hv.
  change (Prim2SF infinity) with (S754_infinity false).
  change (Prim2SF 0) with (S754_zero false) in *.
  destruct (Prim2SF x) as [s | s | | s m e] eqn:E.
  - destruct s; discriminate Hz.
  - change (Prim2SF 1) with (S754_finite false 4503599627370496 (-52)).
    destruct s; split; reflexivity.
  - change (Prim2SF 1) with (S754_finite false 4503599627370496 (-52)).
    split; discriminate.
  - cbn [valid_binary] in Hv. rewrite (SFdiv_one_nonzero s m e Hv).
    split; discriminate.
Qed.

(** The round trip through the two resistivity conversions raises exactly on
    the zeros and on the infinities. *)
Lemma binary64_resistivity_round_trip_raises_iff (k : float) :
  (r <- Binary64.k_to_thermal_resistivity k ;; Binary64.thermal_resistivity_to_k r)
  = Raise ZeroDivisionError
  <-> (k =? 0) = true \/ is_infinity k = true.
Proof.
  rewrite binary64_k_to_thermal_resistivity_cases.
  destruct (k =? 0) eqn:E; cbn [bind].
  - split; [intros _; now left | reflexivity].
  - rewrite binary64_thermal_resistivity_to_k_cases.
    pose proof (binary64_reciprocal_zero_iff k E) as Hz.
    destruct (1 / k =? 0).
    + split; [intros _; right; now apply Hz | reflexivity].
    + split; [discriminate | ].
      intros [H | H]; [discriminate | ]. apply Hz in H. discriminate.
Qed.

(** The round trip through the two R-value conversions, with the constants
    as scipy derives them. *)
Lemma scipy_R_value_round_trip_cases (x : float) (SI : bool) :
  (k <- Binary64.R_value_to_k Binary64.scipy x SI ;;
   Binary64.k_to_R_value Binary64.scipy k SI)
  = let r := if SI then x / Binary64.inch Binary64.scipy
             else x * (Binary64.foot Binary64.scipy * Binary64.foot Binary64.scipy)
                  * Binary64.degree_Fahrenheit Binary64.scipy
                  * Binary64.hour Binary64.scipy
                  / Binary64.Btu Binary64.scipy / Binary64.inch Binary64.scipy in
    if r =? 0 then Raise ZeroDivisionError
    else if 1 / r =? 0 then Raise ZeroDivisionError
         else Ok (if SI then 1 / (1 / r) * Binary64.inch Binary64.scipy
                  else 1 / (1 / r)
                       / (Binary64.foot Binary64.scipy * Binary64.foot Binary64.scipy
                          * Binary64.degree_Fahrenheit Binary64.scipy
                          * Binary64.hour Binary64.scipy
                          / Binary64.Btu Binary64.scipy
                          / Binary64.inch Binary64.scipy)).
Proof.
  rewrite (binary64_R_value_to_k_cases Binary64.scipy x SI
             scipy_inch_nonzero scipy_Btu_nonzero).
  cbv zeta.
  match goal with |- context [if ?r =? 0 then _ else _] =>
    destruct (r =? 0) end; [reflexivity | ].
  cbn [bind]. rewrite scipy_k_to_R_value_cases.
  match goal with |- context [if ?r =? 0 then _ else _] =>
    destruct (r =? 0) end; [reflexivity | ].
  now destruct SI.
Qed.

Lemma scipy_R_value_round_trip_raises_iff (x : float) (SI : bool) :
  (k <- Binary64.R_value_to_k Binary64.scipy x SI ;;
   Binary64.k_to_R_value Binary64.scipy k SI) = Raise ZeroDivisionError
  <-> let r := if SI then x / Binary64.inch Binary64.scipy
               else x * (Binary64.foot Binary64.scipy * Binary64.foot Binary64.scipy)
                    * Binary64.degree_Fahrenheit Binary64.scipy
                    * Binary64.hour Binary64.scipy
                    / Binary64.Btu Binary64.scipy / Binary64.inch Binary64.scipy in
      (r =? 0) = true \/ is_infinity r = true.
Proof.
  rewrite scipy_R_value_round_trip_cases. cbv zeta.
  match goal with |- context [if ?r =? 0 then _ else _] => set (r0 := r) end.
  destruct (r0 =? 0) eqn:E.
  - split; [intros _; now left | reflexivity].
  - pose proof (binary64_reciprocal_zero_iff r0 E) as Hz.
    destruct (1 / r0 =? 0).
    + split; [intros _; right; now apply Hz | reflexivity].
    + split; [discriminate | ].
      intros [H | H]; [discriminate | ]. apply Hz in H. discriminate.
Qed.

End Binary64Reciprocal.

(** Evaluates [Rounding.to_R] on the float literals of a goal. *)
Ltac float_value :=
  unfold Rounding.to_R;
  repeat match goal with
         | |- context [Prim2SF ?x] =>
             let s := eval vm_compute in (Prim2SF x) in
             change (Prim2SF x) with s
         end;
  cbv iota; unfold powerRZ;
  repeat match goal with
         | |- context [Pos.to_nat ?p] =>
             let n := eval vm_compute in (Pos.to_nat p) in
             change (Pos.to_nat p) with n
         end;
  simpl pow.

(** A real number within [2^-57] of a float whose neighbours are [2^-56]
    away. *)
Ltac within_half_gap :=
  float_value;
  match goal with
  | |- (2 * Rabs ?e < _)%R =>
      let Ha := fresh in
      assert (Ha : (Rabs e < / 144115188075855872)%R) by (apply Rabs_def1; lra);
      lra
  end.

(** ** Enclosures of [ln (10/9)] and [PI]

    The docstring of [R_cylinder] prints [ln(10/9)/(400*pi)] to fifteen
    digits.  [PI] is enclosed by the alternating series the Standard Library
    proves for it; [ln (10/9)] by the partial sum [atanh_sum 7 (/19)], the
    remainder being bounded through the mean value theorem. *)

Section Enclosures.

Import Series.
Local Open Scope R_scope.

Lemma derivable_pt_lim_ext (f g : R -> R) (x l : R) :
  (forall y, f y = g y) -> derivable_pt_lim f x l -> derivable_pt_lim g x l.
Proof.
  intros E D eps Heps. destruct (D eps Heps) as [delta Hd].
  exists delta. intros h Hh Hlt. rewrite <- !E. now apply Hd.
Qed.

Lemma derivable_pt_lim_odd_term (i : nat) (x : R) :
  derivable_pt_lim (fun y => y ^ (2 * i + 1) / INR (2 * i + 1)) x (x ^ (2 * i)).
Proof.
  assert (Hn : INR (2 * i + 1) <> 0) by (apply not_0_INR; lia).
  apply derivable_pt_lim_ext
    with (f := mult_real_fct (/ INR (2 * i + 1)) (fun y => y ^ (2 * i + 1))).
  - intros y. unfold mult_real_fct. now field.
  - replace (x ^ (2 * i))
      with (/ INR (2 * i + 1) * (INR (2 * i + 1) * x ^ pred (2 * i + 1))).
    + apply derivable_pt_lim_scal. apply derivable_pt_lim_pow.
    + replace (pred (2 * i + 1)) with (2 * i)%nat by lia. now field.
Qed.

Lemma derivable_pt_lim_atanh_sum (n : nat) (x : R) :
  derivable_pt_lim (atanh_sum n) x (geometric_sum n x).
Proof.
  induction n as [ | n IH].
  - apply derivable_pt_lim_odd_term.
  - unfold atanh_sum, geometric_sum. cbn [sum_f_R0].
    apply (derivable_pt_lim_plus (atanh_sum n) _ x _ _ IH).
    apply derivable_pt_lim_odd_term.
Qed.

Lemma derivable_pt_lim_ln_gap (n : nat) (x : R) :
  -1 < x < 1 -> derivable_pt_lim (ln_gap n) x (ln_gap' n x).
Proof.
  intros Hx. unfold ln_gap, ln_gap'.
  apply derivable_pt_lim_minus.
  - replace (/ (1 + x) + / (1 - x))
      with (/ (1 + x) * (0 + 1) - / (1 - x) * (0 - 1)) by ring.
    apply derivable_pt_lim_minus.
    + apply (derivable_pt_lim_comp (fun y => 1 + y) ln).
      * apply derivable_pt_lim_plus;
          [apply derivable_pt_lim_const | apply derivable_pt_lim_id].
      * apply derivable_pt_lim_ln. lra.
    + apply (derivable_pt_lim_comp (fun y => 1 - y) ln).
      * apply derivable_pt_lim_minus;
          [apply derivable_pt_lim_const | apply derivable_pt_lim_id].
      * apply derivable_pt_lim_ln. lra.
  - apply (derivable_pt_lim_scal (atanh_sum n) 2 x). apply derivable_pt_lim_atanh_sum.
Qed.

Lemma geometric_sum_closed (n : nat) (x : R) :
  (1 - x ^ 2) * geometric_sum n x = 1 - x ^ (2 * n + 2).
Proof.
  unfold geometric_sum. induction n as [ | n IH].
  - simpl. ring.
  - cbn [sum_f_R0]. rewrite Rmult_plus_distr_l, IH.
    replace (2 * S n + 2)%nat with (2 * n + 2 + 2)%nat by lia.
    replace (2 * S n)%nat with (2 * n + 2)%nat by lia.
    rewrite (pow_add x (2 * n + 2) 2). ring.
Qed.

Lemma ln_gap'_closed (n : nat) (x : R) :
  -1 < x < 1 -> ln_gap' n x = 2 * x ^ (2 * n + 2) / (1 - x ^ 2).
Proof.
  intros Hx. unfold ln_gap'.
  assert (H2 : 1 - x ^ 2 <> 0) by nra.
  replace (geometric_sum n x) with ((1 - x ^ (2 * n + 2)) / (1 - x ^ 2)).
  - field. repeat split; lra || nra.
  - rewrite <- geometric_sum_closed. now field.
Qed.

Lemma atanh_sum_0 (n : nat) : atanh_sum n 0 = 0.
Proof.
  unfold atanh_sum. induction n as [ | n IH]; cbn [sum_f_R0].
  - simpl. lra.
  - rewrite IH. rewrite pow_i by lia. lra.
Qed.

(** What the partial sum leaves out of [ln((1+b)/(1-b))], by the mean value
    theorem on [[0, b]]. *)
Lemma ln_gap_bounds (n : nat) (b : R) :
  0 < b < 1 ->
  0 < ln_gap n b < 2 * b ^ (2 * n + 3) / (1 - b ^ 2).
Proof.
  intros Hb.
  destruct (MVT_cor2 (ln_gap n) (ln_gap' n) 0 b) as [c [Hc Hcb]]; [lra | | ].
  - intros c Hc. apply derivable_pt_lim_ln_gap. lra.
  - assert (H0 : ln_gap n 0 = 0).
    { unfold ln_gap. rewrite atanh_sum_0.
      replace (1 + 0) with 1 by ring. replace (1 - 0) with 1 by ring.
      rewrite ln_1. ring. }
    rewrite H0, Rminus_0_r, Rminus_0_r in Hc. rewrite Hc.
    rewrite ln_gap'_closed by lra.
    assert (Hc2 : 0 < 1 - c ^ 2) by nra.
    assert (Hb2 : 0 < 1 - b ^ 2) by nra.
    assert (Hpc : 0 < c ^ (2 * n + 2)) by (apply pow_lt; lra).
    assert (Hpcb : c ^ (2 * n + 2) <= b ^ (2 * n + 2)) by (apply pow_incr; lra).
    assert (Hu : 0 < / (1 - c ^ 2)) by now apply Rinv_0_lt_compat.
    assert (Huv : / (1 - c ^ 2) < / (1 - b ^ 2)).
    { apply Rinv_lt_contravar; [now apply Rmult_lt_0_compat | nra]. }
    replace (2 * n + 3)%nat with (S (2 * n + 2)) by lia.
    change (b ^ S (2 * n + 2)) with (b * b ^ (2 * n + 2)). unfold Rdiv.
    set (P := c ^ (2 * n + 2)) in *. set (Q := b ^ (2 * n + 2)) in *.
    set (u := / (1 - c ^ 2)) in *. set (v := / (1 - b ^ 2)) in *.
    assert (HPu : P * u < Q * v).
    { apply Rle_lt_trans with (Q * u).
      - apply Rmult_le_compat_r; lra.
      - apply Rmult_lt_compat_l; lra. }
    assert (HPu0 : 0 < P * u) by now apply Rmult_lt_0_compat.
    clearbody P Q u v.
    split.
    + apply Rmult_lt_0_compat; lra.
    + replace (2 * (b * Q) * v) with (2 * (Q * v) * b) by ring.
      replace (2 * P * u * b) with (2 * (P * u) * b) by ring.
      apply Rmult_lt_compat_r; lra.
Qed.

Lemma ln_10_9_series : ln (10 / 9) = ln_gap 7 (/ 19) + 2 * atanh_sum 7 (/ 19).
Proof.
  unfold ln_gap.
  replace (1 + / 19) with (10 / 9 * (18 / 19)) by field.
  replace (1 - / 19) with (18 / 19) by field.
  rewrite ln_mult by lra. ring.
Qed.

Lemma ln_10_9_bounds :
  0.10536051565782630122 < ln (10 / 9) < 0.10536051565782630123.
Proof.
  rewrite ln_10_9_series.
  assert (Hb : 0 < / 19 < 1) by lra.
  pose proof (ln_gap_bounds 7 (/ 19) Hb) as [Hlo Hhi].
  unfold atanh_sum. simpl in Hhi |- *.
  split; lra.
Qed.

Lemma PI_bounds : 3.141592653589793238 < PI < 3.141592653589793239.
Proof.
  pose proof (PI_2_3_7_ineq 9) as [Hlo Hhi].
  unfold PI_2_3_7_tg, tg_alt, Ratan_seq in Hlo, Hhi.
  simpl in Hlo, Hhi.
  split; lra.
Qed.

(** The floats of the docstring's shell as real numbers: [1/0.9] on floats is
    [1.1111111111111112], a little above [10/9], and the float [0.9] is a
    little above [9/10]. *)
Lemma to_R_values :
  Rounding.to_R 1.1111111111111112 = 2501999792983609 / 2251799813685248
  /\ Rounding.to_R 0.9 = 8106479329266893 / 9007199254740992
  /\ Rounding.to_R 1 = 1 /\ Rounding.to_R 0 = 0 /\ Rounding.to_R 2 = 2.
Proof.
  repeat split; float_value; lra.
Qed.

Lemma ln_series (n : nat) (b : R) :
  0 < b < 1 -> ln ((1 + b) / (1 - b)) = ln_gap n b + 2 * atanh_sum n b.
Proof.
  intros Hb. unfold ln_gap.
  unfold Rdiv. rewrite ln_mult, ln_Rinv by (try apply Rinv_0_lt_compat; lra). ring.
Qed.

Lemma ln_shell_ratio_bounds :
  0.1053605156578263455 < ln (2501999792983609 / 2251799813685248)
  < 0.1053605156578263458.
Proof.
  replace (2501999792983609 / 2251799813685248)
    with ((1 + 250199979298361 / 4753799606668857)
          / (1 - 250199979298361 / 4753799606668857))
    by (field; lra).
  assert (Hb : 0 < 250199979298361 / 4753799606668857 < 1) by lra.
  rewrite (ln_series 6 _ Hb).
  pose proof (ln_gap_bounds 6 _ Hb) as [Hlo Hhi].
  unfold atanh_sum. simpl in Hhi |- *.
  split; lra.
Qed.

Lemma ln_shell_inverse_ratio_bounds :
  -0.1053605156578262767 < ln (8106479329266893 / 9007199254740992)
  < -0.1053605156578262764.
Proof.
  replace (8106479329266893 / 9007199254740992)
    with (/ ((1 + 900719925474099 / 17113678584007885)
             / (1 - 900719925474099 / 17113678584007885)))
    by (field; lra).
  assert (Hb : 0 < 900719925474099 / 17113678584007885 < 1) by lra.
  rewrite ln_Rinv by (apply Rdiv_pos_pos; lra).
  rewrite (ln_series 6 _ Hb).
  pose proof (ln_gap_bounds 6 _ Hb) as [Hlo Hhi].
  unfold atanh_sum. simpl in Hhi |- *.
  split; lra.
Qed.

(** The two values of [math.log] that the docstring's shell needs are the
    floats nearest to the true logarithms: a logarithm that rounds to nearest
    returns [0.10536051565782635] at [1.1111111111111112] and
    [-0.10536051565782628] at [0.9]. *)
Lemma math_log_shell_values :
  Rounding.nearest (ln (Rounding.to_R 1.1111111111111112)) 0.10536051565782635
  /\ Rounding.nearest (ln (Rounding.to_R 0.9)) (-0.10536051565782628).
Proof.
  destruct to_R_values as (E1 & E2 & _).
  rewrite E1, E2.
  pose proof ln_shell_ratio_bounds as [H1 H2].
  pose proof ln_shell_inverse_ratio_bounds as [H3 H4].
  split; split.
  - set (l := ln _) in *. clearbody l. within_half_gap.
  - set (l := ln _) in *. clearbody l. within_half_gap.
  - clear H1 H2. set (l := ln _) in *. clearbody l. within_half_gap.
  - clear H1 H2. set (l := ln _) in *. clearbody l. within_half_gap.
Qed.

(** The logarithm of [1.0] is exactly [0.0], and that of [2.0] is positive. *)
Lemma math_log_one_two :
  ln (Rounding.to_R 1) = Rounding.to_R 0 /\ 0 < ln (Rounding.to_R 2).
Proof.
  destruct to_R_values as (_ & _ & E1 & E0 & E2).
  rewrite E1, E0, E2, ln_1. split; [reflexivity | ].
  rewrite <- ln_1. apply ln_increasing; lra.
Qed.

End Enclosures.

(** ** Resistance and conductivity: [R_to_k] and [k_to_R] *)

Section Resistance.

Import Conduction.
Local Open Scope R_scope.
Local Open Scope py_scope.

Lemma R_to_k_nonzero (R' t A : R) :
  R' <> 0 -> A <> 0 -> R_to_k R' t A = Ok (t / (A * R')).
Proof.
  intros HR HA. unfold R_to_k. now run_div.
Qed.

Lemma k_to_R_nonzero (k t A : R) :
  k <> 0 -> A <> 0 -> k_to_R k t A = Ok (t / (k * A)).
Proof.
  intros Hk HA. unfold k_to_R. now run_div.
Qed.

Lemma R_to_k_zero_divisor (R' t A : R) :
  A * R' = 0 -> R_to_k R' t A = Raise ZeroDivisionError.
Proof.
  intros H. unfold R_to_k. rewrite H. now run_div.
Qed.

Lemma k_to_R_zero_divisor (k t A : R) :
  k * A = 0 -> k_to_R k t A = Raise ZeroDivisionError.
Proof.
  intros H. unfold k_to_R. rewrite H. now run_div.
Qed.

(** C6, as amended.  On binary64 floats [R_to_k(R, t, A)] returns the rounded
    quotient [t/(A*R)] whenever the rounded product [A*R] is not a zero, and
    raises [ZeroDivisionError] when it is one.  Over exact arithmetic it
    returns [t/(A*R)] for every non-zero [R] and [A] and every [t].  With the
    default area, [R_to_k(R=0.05, t=0.025)] returns exactly [0.5], on floats
    and over exact arithmetic. *)
Theorem C6_R_to_k_formula :
  (forall x t A : float,
     (A * x =? 0)%float = false ->
     Binary64.R_to_k x t A = Ok (t / (A * x))%float)
  /\ (forall x t A : float,
        (A * x =? 0)%float = true ->
        Binary64.R_to_k x t A = Raise ZeroDivisionError)
  /\ Binary64.R_to_k 0.05 0.025 Binary64.default_A = Ok 0.5%float
  /\ (forall R' t A : R, R' <> 0 -> A <> 0 -> R_to_k R' t A = Ok (t / (A * R')))
  /\ R_to_k 0.05 0.025 default_A = Ok 0.5.
Proof.
  repeat apply conj.
  - intros x t A H. now rewrite binary64_R_to_k_cases, H.
  - intros x t A H. now rewrite binary64_R_to_k_cases, H.
  - reflexivity.
  - exact R_to_k_nonzero.
  - unfold default_A. rewrite R_to_k_nonzero by lra. f_equal. lra.
Qed.

Lemma C6_R_to_k_formula_witness :
  ((4 * 2 =? 0)%float = false /\ Binary64.R_to_k 2 3 4 = Ok 0.375%float)
  /\ ((2 <> 0 /\ 4 <> 0) /\ R_to_k 2 3 4 = Ok (3 / (4 * 2))).
Proof.
  assert (Hf : (4 * 2 =? 0)%float = false) by reflexivity.
  assert (H2 : 2 <> 0) by lra.
  assert (H4 : 4 <> 0) by lra.
  pose proof C6_R_to_k_formula as (Hfloat & _ & _ & Hreal & _).
  split; split.
  - exact Hf.
  - exact (Hfloat 2%float 3%float 4%float Hf).
  - split; assumption.
  - exact (Hreal 2 3 4 H2 H4).
Defined.

(** C6 as stated fails on floats: [R = A = 1e-200] are both non-zero, yet
    their product underflows to [0.0] and [R_to_k(1e-200, 1., 1e-200)] raises
    [ZeroDivisionError] where [t/(A*R)] was to be returned. *)
Lemma C6_R_to_k_underflow_raises :
  (1e-200 =? 0)%float = false
  /\ (1e-200 * 1e-200 =? 0)%float = true
  /\ Binary64.R_to_k 1e-200 1 1e-200 = Raise ZeroDivisionError
  /\ ~ returns (Binary64.R_to_k 1e-200 1 1e-200).
Proof.
  repeat apply conj; try reflexivity.
  intros [k Hk]. discriminate Hk.
Qed.

(** C5, as amended.  Over exact arithmetic, for all positive [R], [t] and [A],
    [k_to_R(R_to_k(R, t, A), t, A)] is [R].  On binary64 floats the round trip
    computes [t/((t/(A*R))*A)] with every operation rounded, and raises
    [ZeroDivisionError] when either rounded divisor, [A*R] or [(t/(A*R))*A],
    is a zero.  It gives back [R] exactly at the docstring's values
    [(0.05, 0.025, 1.)], but there is no tolerance that holds for all positive
    floats: at [(1e300, 1e-300, 1.)] it raises [ZeroDivisionError], and at
    [(1e-200, 1e200, 1.)] it returns [0.0]. *)
Theorem C5_k_to_R_after_R_to_k :
  (forall R' t A : R,
     0 < R' -> 0 < t -> 0 < A ->
     (k <- R_to_k R' t A ;; k_to_R k t A) = Ok R')
  /\ (forall x t A : float,
        (k <- Binary64.R_to_k x t A ;; Binary64.k_to_R k t A)
        = if (A * x =? 0)%float then Raise ZeroDivisionError
          else if (t / (A * x) * A =? 0)%float then Raise ZeroDivisionError
               else Ok (t / (t / (A * x) * A))%float)
  /\ (k <- Binary64.R_to_k 0.05 0.025 1 ;; Binary64.k_to_R k 0.025 1) = Ok 0.05%float
  /\ (k <- Binary64.R_to_k 1e300 1e-300 1 ;; Binary64.k_to_R k 1e-300 1)
     = Raise ZeroDivisionError
  /\ (k <- Binary64.R_to_k 1e-200 1e200 1 ;; Binary64.k_to_R k 1e200 1) = Ok 0%float.
Proof.
  repeat apply conj; try reflexivity.
  - intros R' t A HR Ht HA.
    rewrite R_to_k_nonzero by lra. rewrite bind_Ok.
    rewrite k_to_R_nonzero by nonzero.
    f_equal. field. repeat split; lra.
  - intros x t A. rewrite binary64_R_to_k_cases.
    destruct (A * x =? 0)%float; [reflexivity | ]. cbn [bind].
    apply binary64_k_to_R_cases.
Qed.

Lemma C5_k_to_R_after_R_to_k_witness :
  (0 < 2 /\ 0 < 3 /\ 0 < 4) /\ (k <- R_to_k 2 3 4 ;; k_to_R k 3 4) = Ok 2.
Proof.
  assert (H2 : 0 < 2) by lra.
  assert (H3 : 0 < 3) by lra.
  assert (H4 : 0 < 4) by lra.
  split; [repeat split; assumption
         | exact (proj1 C5_k_to_R_after_R_to_k 2 3 4 H2 H3 H4)].
Defined.

(** C5 as stated fails on floats: [R = 1e300], [t = 1e-300] and [A = 1.] are
    positive, yet [R_to_k] underflows to [0.0], on which [k_to_R] raises
    [ZeroDivisionError]; and from [(1e-200, 1e200, 1.)] the round trip returns
    [0.0], which is within no tolerance of [1e-200]. *)
Lemma C5_binary64_round_trip_raises :
  ((0 <? 1e300)%float = true /\ (0 <? 1e-300)%float = true /\ (0 <? 1)%float = true)
  /\ Binary64.R_to_k 1e300 1e-300 1 = Ok 0%float
  /\ (k <- Binary64.R_to_k 1e300 1e-300 1 ;; Binary64.k_to_R k 1e-300 1)
     = Raise ZeroDivisionError
  /\ ((0 <? 1e-200)%float = true /\ (0 <? 1e200)%float = true)
  /\ Binary64.R_to_k 1e-200 1e200 1 = Ok infinity
  /\ (k <- Binary64.R_to_k 1e-200 1e200 1 ;; Binary64.k_to_R k 1e200 1) = Ok 0%float.
Proof. repeat apply conj; reflexivity. Qed.

(** C9: [R_to_k] and [k_to_R] are the same function.  Both divide [t] by the
    product of the first argument and [A]: for non-zero [x] and [A] both
    return [t/(x*A)], and the two agree on every other input as well (both
    raise [ZeroDivisionError]).  On binary64 floats they agree bit for bit,
    since the rounded product commutes. *)
Theorem C9_R_to_k_is_k_to_R :
  (forall x t A : R, x <> 0 -> A <> 0 ->
     R_to_k x t A = k_to_R x t A /\ k_to_R x t A = Ok (t / (x * A)))
  /\ (forall x t A : R, R_to_k x t A = k_to_R x t A)
  /\ (forall x t A : float, Binary64.R_to_k x t A = Binary64.k_to_R x t A).
Proof.
  assert (E : forall x t A : R, R_to_k x t A = k_to_R x t A).
  { intros x t A. unfold R_to_k, k_to_R. now rewrite (Rmult_comm A x). }
  split; [ | split].
  - intros x t A Hx HA. split; [apply E | now apply k_to_R_nonzero].
  - exact E.
  - intros x t A. unfold Binary64.R_to_k, Binary64.k_to_R.
    now rewrite (binary64_mul_comm A x).
Qed.

Lemma C9_R_to_k_is_k_to_R_witness :
  (2 <> 0 /\ 4 <> 0)
  /\ R_to_k 2 3 4 = k_to_R 2 3 4 /\ k_to_R 2 3 4 = Ok (3 / (2 * 4)).
Proof.
  assert (H2 : 2 <> 0) by lra.
  assert (H4 : 4 <> 0) by lra.
  split; [split; assumption | exact (proj1 C9_R_to_k_is_k_to_R 2 3 4 H2 H4)].
Defined.

End Resistance.

(** ** Resistivity and conductivity *)

Section Resistivity.

Import Conduction.
Local Open Scope R_scope.
Local Open Scope py_scope.

Lemma k_to_thermal_resistivity_nonzero (k : R) :
  k <> 0 -> k_to_thermal_resistivity k = Ok (1 / k).
Proof.
  intros Hk. unfold k_to_thermal_resistivity. now run_div.
Qed.

Lemma thermal_resistivity_to_k_nonzero (r : R) :
  r <> 0 -> thermal_resistivity_to_k r = Ok (1 / r).
Proof.
  intros Hr. unfold thermal_resistivity_to_k. now run_div.
Qed.

Lemma k_to_thermal_resistivity_raises_iff (k : R) :
  k_to_thermal_resistivity k = Raise ZeroDivisionError <-> k = 0.
Proof.
  split.
  - intros H. destruct (Req_dec_T k 0) as [E | N]; [exact E | ].
    rewrite k_to_thermal_resistivity_nonzero in H by exact N. discriminate.
  - intros ->. unfold k_to_thermal_resistivity. now run_div.
Qed.

Lemma thermal_resistivity_to_k_raises_iff (r : R) :
  thermal_resistivity_to_k r = Raise ZeroDivisionError <-> r = 0.
Proof.
  split.
  - intros H. destruct (Req_dec_T r 0) as [E | N]; [exact E | ].
    rewrite thermal_resistivity_to_k_nonzero in H by exact N. discriminate.
  - intros ->. unfold thermal_resistivity_to_k. now run_div.
Qed.

Lemma resistivity_round_trip (k : R) :
  k <> 0 ->
  (r <- k_to_thermal_resistivity k ;; thermal_resistivity_to_k r) = Ok k.
Proof.
  intros Hk.
  rewrite k_to_thermal_resistivity_nonzero by exact Hk. rewrite bind_Ok.
  rewrite thermal_resistivity_to_k_nonzero by nonzero.
  f_equal. now field.
Qed.

(** C7, as amended.  Over exact arithmetic, for every [k > 0],
    [thermal_resistivity_to_k(k_to_thermal_resistivity(k))] is [k]; each of
    the two conversions returns the reciprocal of a non-zero argument and
    raises [ZeroDivisionError] exactly when its argument is zero.  On binary64
    floats each conversion raises [ZeroDivisionError] exactly when its
    argument is a zero and otherwise returns the rounded reciprocal; the round
    trip raises when [k] or the rounded [1/k] is a zero, which is exactly when
    [k] is a zero or an infinity, and otherwise returns the rounded
    [1/(1/k)].  That is not always [k]: [49.0] comes back as
    [49.00000000000001] and [1e-320] as [0.0], and [inf] raises
    [ZeroDivisionError]; [0.25] comes back as itself. *)
Theorem C7_resistivity_inverse_pair :
  (forall k : R, 0 < k ->
     (r <- k_to_thermal_resistivity k ;; thermal_resistivity_to_k r) = Ok k)
  /\ (forall k : R, k <> 0 -> k_to_thermal_resistivity k = Ok (1 / k))
  /\ (forall r : R, r <> 0 -> thermal_resistivity_to_k r = Ok (1 / r))
  /\ (forall k : R, k_to_thermal_resistivity k = Raise ZeroDivisionError <-> k = 0)
  /\ (forall r : R, thermal_resistivity_to_k r = Raise ZeroDivisionError <-> r = 0)
  /\ (forall k : float,
        Binary64.k_to_thermal_resistivity k = Raise ZeroDivisionError
        <-> (k =? 0)%float = true)
  /\ (forall r : float,
        Binary64.thermal_resistivity_to_k r = Raise ZeroDivisionError
        <-> (r =? 0)%float = true)
  /\ (r <- Binary64.k_to_thermal_resistivity 49 ;; Binary64.thermal_resistivity_to_k r)
     = Ok 49.00000000000001%float
  /\ (forall k : float,
        Binary64.k_to_thermal_resistivity k
        = if (k =? 0)%float then Raise ZeroDivisionError else Ok (1 / k)%float)
  /\ (forall r : float,
        Binary64.thermal_resistivity_to_k r
        = if (r =? 0)%float then Raise ZeroDivisionError else Ok (1 / r)%float)
  /\ (forall k : float,
        (r <- Binary64.k_to_thermal_resistivity k ;; Binary64.thermal_resistivity_to_k r)
        = if (k =? 0)%float then Raise ZeroDivisionError
          else if (1 / k =? 0)%float then Raise ZeroDivisionError
               else Ok (1 / (1 / k))%float)
  /\ (forall k : float,
        (r <- Binary64.k_to_thermal_resistivity k ;; Binary64.thermal_resistivity_to_k r)
        = Raise ZeroDivisionError
        <-> (k =? 0)%float = true \/ is_infinity k = true)
  /\ (r <- Binary64.k_to_thermal_resistivity 1e-320 ;;
      Binary64.thermal_resistivity_to_k r) = Ok 0%float
  /\ (r <- Binary64.k_to_thermal_resistivity infinity ;;
      Binary64.thermal_resistivity_to_k r) = Raise ZeroDivisionError
  /\ (r <- Binary64.k_to_thermal_resistivity 0.25 ;;
      Binary64.thermal_resistivity_to_k r) = Ok 0.25%float.
Proof.
  repeat apply conj; try reflexivity.
  - intros k Hk. apply resistivity_round_trip. lra.
  - exact k_to_thermal_resistivity_nonzero.
  - exact thermal_resistivity_to_k_nonzero.
  - exact k_to_thermal_resistivity_raises_iff.
  - exact thermal_resistivity_to_k_raises_iff.
  - exact binary64_k_to_thermal_resistivity_raises_iff.
  - exact binary64_thermal_resistivity_to_k_raises_iff.
  - exact binary64_k_to_thermal_resistivity_cases.
  - exact binary64_thermal_resistivity_to_k_cases.
  - intros k. rewrite binary64_k_to_thermal_resistivity_cases.
    destruct (k =? 0)%float; [reflexivity | ]. cbn [bind].
    apply binary64_thermal_resistivity_to_k_cases.
  - exact binary64_resistivity_round_trip_raises_iff.
Qed.

Lemma C7_resistivity_inverse_pair_witness :
  0 < 49 /\ (r <- k_to_thermal_resistivity 49 ;; thermal_resistivity_to_k r) = Ok 49.
Proof.
  assert (H : 0 < 49) by lra.
  split; [exact H | exact (proj1 C7_resistivity_inverse_pair 49 H)].
Defined.

(** C7 as stated fails on the floats the code computes with: [k = 49.0] is
    positive, and [thermal_resistivity_to_k(k_to_thermal_resistivity(49.0))]
    is [49.00000000000001], which is not [== 49.0]. *)
Lemma C7_binary64_round_trip_49 :
  (0 <? 49)%float = true
  /\ (r <- Binary64.k_to_thermal_resistivity 49 ;; Binary64.thermal_resistivity_to_k r)
     = Ok 49.00000000000001%float
  /\ (49.00000000000001 =? 49)%float = false
  /\ (r <- Binary64.k_to_thermal_resistivity 49 ;; Binary64.thermal_resistivity_to_k r)
     <> Ok 49%float.
Proof.
  repeat apply conj; try reflexivity.
  intros H.
  apply (f_equal (fun c => match c with
                           | Ok z => (z =? 49)%float
                           | Raise _ => true
                           end)) in H.
  vm_compute in H. discriminate.
Qed.

End Resistivity.

(** ** R-values *)

Section RValue.

Import Conduction.
Local Open Scope R_scope.
Local Open Scope py_scope.

(** The Imperial R-value unit in SI resistivity units,
    [foot**2*degree_Fahrenheit*hour/Btu/inch]. *)
Lemma imperial_factor_value :
  foot ^ 2 * degree_Fahrenheit * hour / Btu / inch
  = 0.3048 ^ 2 * (5 / 9) * 3600 / 1055.05585262 / 0.0254.
Proof. reflexivity. Qed.

Lemma R_value_to_k_nonzero (x : R) (SI : bool) :
  x <> 0 ->
  R_value_to_k x SI
  = Ok (if SI then 1 / (x / inch)
        else 1 / (x * foot ^ 2 * degree_Fahrenheit * hour / Btu / inch)).
Proof.
  intros Hx. unfold R_value_to_k, thermal_resistivity_to_k.
  destruct SI; now run_div.
Qed.

Lemma R_value_to_k_zero (SI : bool) :
  R_value_to_k 0 SI = Raise ZeroDivisionError.
Proof.
  unfold R_value_to_k. destruct SI.
  - rewrite div_nonzero by nonzero. rewrite bind_Ok.
    replace (0 / inch) with 0 by (unfold inch; lra).
    unfold thermal_resistivity_to_k. now run_div.
  - rewrite div_nonzero by nonzero. rewrite bind_Ok.
    rewrite div_nonzero by nonzero. rewrite bind_Ok.
    replace (0 * foot ^ 2 * degree_Fahrenheit * hour / Btu / inch) with 0
      by (unfold inch, foot, hour, Btu, degree_Fahrenheit; lra).
    unfold thermal_resistivity_to_k. now run_div.
Qed.

Lemma R_value_to_k_result_nonzero (x : R) (SI : bool) :
  x <> 0 ->
  (if SI then 1 / (x / inch)
   else 1 / (x * foot ^ 2 * degree_Fahrenheit * hour / Btu / inch)) <> 0.
Proof.
  intros Hx. destruct SI; nonzero.
Qed.

Lemma k_to_R_value_nonzero (k : R) (SI : bool) :
  k <> 0 ->
  k_to_R_value k SI
  = Ok (if SI then 1 / k * inch
        else 1 / k / (foot ^ 2 * degree_Fahrenheit * hour / Btu / inch)).
Proof.
  intros Hk. unfold k_to_R_value, k_to_thermal_resistivity.
  destruct SI; now run_div.
Qed.

Lemma k_to_R_value_zero (SI : bool) :
  k_to_R_value 0 SI = Raise ZeroDivisionError.
Proof.
  unfold k_to_R_value, k_to_thermal_resistivity. now run_div.
Qed.

(** C1, as amended.  [R_value_to_k(R_value, SI)] first scales the R-value,
    [r = R_value/inch] when [SI] is true and
    [r = R_value*foot**2*degree_Fahrenheit*hour/Btu/inch] when it is false, and
    then returns [1/r].  On binary64 floats every operation is rounded; the
    call raises [ZeroDivisionError] exactly when the rounded [r] is a zero and
    otherwise returns the rounded [1/r].  [r] is a zero at [R_value = 0], and
    also when the scaling underflows: [R_value = 5e-324] with [SI=False].
    With the constants as scipy derives them, [R_value_to_k(0.12)] is
    [0.2116666666666667] and [R_value_to_k(0.71, SI=False)] is
    [0.20313787163983468], digit for digit.  Over exact arithmetic, with the
    constants of the specification, every non-zero [R_value] gives
    [1/(R_value/0.0254)], respectively
    [1/(R_value*0.3048^2*(5/9)*3600/1055.05585262/0.0254)], which is within
    [5e-17] of each of the two values above, and [R_value = 0] raises. *)
Theorem C1_R_value_to_k_reciprocal :
  (forall (c : Binary64.constants) (x : float) (SI : bool),
     (Binary64.inch c =? 0)%float = false ->
     (Binary64.Btu c =? 0)%float = false ->
     Binary64.R_value_to_k c x SI
     = let r := (if SI then x / Binary64.inch c
                 else x * (Binary64.foot c * Binary64.foot c)
                      * Binary64.degree_Fahrenheit c * Binary64.hour c
                      / Binary64.Btu c / Binary64.inch c)%float in
       if (r =? 0)%float then Raise ZeroDivisionError else Ok (1 / r)%float)
  /\ ((Binary64.inch Binary64.scipy =? 0)%float = false
      /\ (Binary64.Btu Binary64.scipy =? 0)%float = false)
  /\ (forall SI : bool,
        Binary64.R_value_to_k Binary64.scipy 0 SI = Raise ZeroDivisionError)
  /\ ((5e-324 =? 0)%float = false
      /\ Binary64.R_value_to_k Binary64.scipy 5e-324 false = Raise ZeroDivisionError)
  /\ Binary64.R_value_to_k Binary64.scipy 0.12 default_SI = Ok 0.2116666666666667%float
  /\ Binary64.R_value_to_k Binary64.scipy 0.71 false = Ok 0.20313787163983468%float
  /\ (forall (x : R) (SI : bool), x <> 0 ->
        R_value_to_k x SI
        = Ok (if SI then 1 / (x / 0.0254)
              else 1 / (x * 0.3048 ^ 2 * (5 / 9) * 3600 / 1055.05585262 / 0.0254)))
  /\ (forall SI : bool, R_value_to_k 0 SI = Raise ZeroDivisionError)
  /\ (exists k : R,
        R_value_to_k 0.12 default_SI = Ok k
        /\ Rabs (k - 0.2116666666666667) < 5e-17)
  /\ (exists k : R,
        R_value_to_k 0.71 false = Ok k
        /\ Rabs (k - 0.20313787163983468) < 5e-17).
Proof.
  repeat apply conj; try reflexivity.
  - exact binary64_R_value_to_k_cases.
  - intros SI. now destruct SI.
  - intros x SI Hx. now rewrite R_value_to_k_nonzero.
  - exact R_value_to_k_zero.
  - eexists. split.
    + unfold default_SI. apply R_value_to_k_nonzero. lra.
    + unfold inch. apply Rabs_def1; lra.
  - eexists. split.
    + apply R_value_to_k_nonzero. lra.
    + unfold inch, foot, hour, Btu, degree_Fahrenheit. apply Rabs_def1; lra.
Qed.

Lemma C1_R_value_to_k_reciprocal_witness :
  (Binary64.R_value_to_k Binary64.scipy 2 true
   = if (2 / Binary64.inch Binary64.scipy =? 0)%float then Raise ZeroDivisionError
     else Ok (1 / (2 / Binary64.inch Binary64.scipy))%float)
  /\ (2 <> 0 /\ R_value_to_k 2 true = Ok (1 / (2 / 0.0254))).
Proof.
  assert (H2 : 2 <> 0) by lra.
  pose proof C1_R_value_to_k_reciprocal as (Hfloat & (Hi & Hb) & _ & _ & _ & _ & Hreal & _).
  split; [exact (Hfloat Binary64.scipy 2%float true Hi Hb) | ].
  split; [exact H2 | exact (Hreal 2 true H2)].
Defined.

(** C1 as stated fails at [R_value = 0]: the call returns no conductivity,
    it raises [ZeroDivisionError], with either flag. *)
Lemma C1_R_value_to_k_zero_raises :
  R_value_to_k 0 true = Raise ZeroDivisionError
  /\ R_value_to_k 0 false = Raise ZeroDivisionError
  /\ ~ returns (R_value_to_k 0 true)
  /\ ~ returns (R_value_to_k 0 false).
Proof.
  repeat split; try apply R_value_to_k_zero;
    intros [k Hk]; rewrite R_value_to_k_zero in Hk; discriminate.
Qed.

(** C2, as amended.  Over exact arithmetic, for every positive [x] and either
    flag, [k_to_R_value(R_value_to_k(x, SI), SI)] is [x].  On binary64 floats,
    with the constants as scipy derives them, the round trip raises
    [ZeroDivisionError] when the scaled resistivity [r] or its rounded
    reciprocal [1/r] is a zero, which is exactly when [r] is a zero or an
    infinity, and otherwise returns [1/(1/r)] scaled back, every operation
    rounded.  It is not the identity, and no tolerance holds
    for all positive floats: [0.12] comes back as [0.11999999999999998] and
    [0.71] with [SI=False] as [0.7099999999999999] (the docstring's values),
    [1e308] raises [ZeroDivisionError] with either flag, and [1e-310] comes
    back as [0.0]. *)
Theorem C2_k_to_R_value_after_R_value_to_k :
  (forall (x : R) (SI : bool),
     0 < x -> (k <- R_value_to_k x SI ;; k_to_R_value k SI) = Ok x)
  /\ (forall (x : float) (SI : bool),
        (k <- Binary64.R_value_to_k Binary64.scipy x SI ;;
         Binary64.k_to_R_value Binary64.scipy k SI)
        = let r := (if SI then x / Binary64.inch Binary64.scipy
                    else x * (Binary64.foot Binary64.scipy * Binary64.foot Binary64.scipy)
                         * Binary64.degree_Fahrenheit Binary64.scipy
                         * Binary64.hour Binary64.scipy
                         / Binary64.Btu Binary64.scipy / Binary64.inch Binary64.scipy)%float in
          if (r =? 0)%float then Raise ZeroDivisionError
          else if (1 / r =? 0)%float then Raise ZeroDivisionError
               else Ok (if SI then 1 / (1 / r) * Binary64.inch Binary64.scipy
                        else 1 / (1 / r)
                             / (Binary64.foot Binary64.scipy * Binary64.foot Binary64.scipy
                                * Binary64.degree_Fahrenheit Binary64.scipy
                                * Binary64.hour Binary64.scipy
                                / Binary64.Btu Binary64.scipy
                                / Binary64.inch Binary64.scipy))%float)
  /\ (forall (x : float) (SI : bool),
        (k <- Binary64.R_value_to_k Binary64.scipy x SI ;;
         Binary64.k_to_R_value Binary64.scipy k SI) = Raise ZeroDivisionError
        <-> let r := (if SI then x / Binary64.inch Binary64.scipy
                      else x * (Binary64.foot Binary64.scipy * Binary64.foot Binary64.scipy)
                           * Binary64.degree_Fahrenheit Binary64.scipy
                           * Binary64.hour Binary64.scipy
                           / Binary64.Btu Binary64.scipy
                           / Binary64.inch Binary64.scipy)%float in
            (r =? 0)%float = true \/ is_infinity r = true)
  /\ (k <- Binary64.R_value_to_k Binary64.scipy 0.12 true ;;
      Binary64.k_to_R_value Binary64.scipy k true) = Ok 0.11999999999999998%float
  /\ (k <- Binary64.R_value_to_k Binary64.scipy 0.71 false ;;
      Binary64.k_to_R_value Binary64.scipy k false) = Ok 0.7099999999999999%float
  /\ (forall SI : bool,
        (k <- Binary64.R_value_to_k Binary64.scipy 1e308 SI ;;
         Binary64.k_to_R_value Binary64.scipy k SI) = Raise ZeroDivisionError)
  /\ (forall SI : bool,
        (k <- Binary64.R_value_to_k Binary64.scipy 1e-310 SI ;;
         Binary64.k_to_R_value Binary64.scipy k SI) = Ok 0%float).
Proof.
  repeat apply conj; try reflexivity.
  - intros x SI Hx.
    assert (Hx0 : x <> 0) by lra.
    rewrite R_value_to_k_nonzero by exact Hx0. rewrite bind_Ok.
    rewrite k_to_R_value_nonzero by now apply R_value_to_k_result_nonzero.
    f_equal. destruct SI; unfold inch, foot, hour, Btu, degree_Fahrenheit;
      field; repeat split; lra.
  - exact scipy_R_value_round_trip_cases.
  - exact scipy_R_value_round_trip_raises_iff.
  - intros SI. now destruct SI.
  - intros SI. now destruct SI.
Qed.

Lemma C2_k_to_R_value_after_R_value_to_k_witness :
  0 < 0.71 /\ (k <- R_value_to_k 0.71 false ;; k_to_R_value k false) = Ok 0.71.
Proof.
  assert (H : 0 < 0.71) by lra.
  split; [exact H | exact (proj1 C2_k_to_R_value_after_R_value_to_k 0.71 false H)].
Defined.

(** C2 as stated fails on floats: [1e308] is positive, yet its scaled
    resistivity overflows, [R_value_to_k] returns [0.0] and [k_to_R_value]
    raises [ZeroDivisionError] on that, with either flag; and [1e-310] is
    positive, yet [R_value_to_k] returns [inf] and the round trip [0.0], which
    is within no tolerance of [1e-310]. *)
Lemma C2_binary64_round_trip_fails :
  (0 <? 1e308)%float = true
  /\ Binary64.R_value_to_k Binary64.scipy 1e308 true = Ok 0%float
  /\ (k <- Binary64.R_value_to_k Binary64.scipy 1e308 true ;;
      Binary64.k_to_R_value Binary64.scipy k true) = Raise ZeroDivisionError
  /\ (k <- Binary64.R_value_to_k Binary64.scipy 1e308 false ;;
      Binary64.k_to_R_value Binary64.scipy k false) = Raise ZeroDivisionError
  /\ (0 <? 1e-310)%float = true
  /\ Binary64.R_value_to_k Binary64.scipy 1e-310 true = Ok infinity
  /\ (k <- Binary64.R_value_to_k Binary64.scipy 1e-310 true ;;
      Binary64.k_to_R_value Binary64.scipy k true) = Ok 0%float
  /\ (k <- Binary64.R_value_to_k Binary64.scipy 1e-310 false ;;
      Binary64.k_to_R_value Binary64.scipy k false) = Ok 0%float.
Proof. repeat apply conj; reflexivity. Qed.

(** C8: the quotient [R_value_to_k(1, SI=False) / R_value_to_k(1, SI=True)] is
    the constant [Btu/(foot^2*degree_Fahrenheit*hour)], which is
    [5.678263341113488] to sixteen significant digits; the same quotient is
    obtained from every non-zero R-value, so it depends on the unit factors
    alone. *)
Theorem C8_imperial_over_SI_ratio :
  (exists a b q : R,
     R_value_to_k 1 false = Ok a /\ R_value_to_k 1 true = Ok b /\ div a b = Ok q
     /\ q = Btu / (foot ^ 2 * degree_Fahrenheit * hour)
     /\ Rabs (q - 5.678263341113488) < 5e-16)
  /\ (forall x : R, x <> 0 ->
        (a <- R_value_to_k x false ;; b <- R_value_to_k x true ;; div a b)
        = Ok (Btu / (foot ^ 2 * degree_Fahrenheit * hour))).
Proof.
  assert (G : forall x : R, x <> 0 ->
            (a <- R_value_to_k x false ;; b <- R_value_to_k x true ;; div a b)
            = Ok (Btu / (foot ^ 2 * degree_Fahrenheit * hour))).
  { intros x Hx.
    rewrite !R_value_to_k_nonzero by exact Hx. rewrite !bind_Ok.
    rewrite div_nonzero by nonzero.
    f_equal. unfold inch, foot, hour, Btu, degree_Fahrenheit.
    field; repeat split; lra. }
  split; [ | exact G].
  assert (H1 : 1 <> 0) by lra.
  specialize (G 1 H1).
  rewrite !R_value_to_k_nonzero in G by exact H1. rewrite !bind_Ok in G.
  do 3 eexists.
  split; [now apply R_value_to_k_nonzero | ].
  split; [now apply R_value_to_k_nonzero | ].
  split; [exact G | ].
  split; [reflexivity | ].
  unfold foot, hour, Btu, degree_Fahrenheit. apply Rabs_def1; lra.
Qed.

Lemma C8_imperial_over_SI_ratio_witness :
  2 <> 0
  /\ (a <- R_value_to_k 2 false ;; b <- R_value_to_k 2 true ;; div a b)
     = Ok (Btu / (foot ^ 2 * degree_Fahrenheit * hour)).
Proof.
  assert (H2 : 2 <> 0) by lra.
  split; [exact H2 | exact (proj2 C8_imperial_over_SI_ratio 2 H2)].
Defined.

End RValue.

(** ** The cylindrical shell

    The lemmas of this section are about [Conduction.R_cylinder], the shell
    over exact arithmetic; the claims add what the floats do. *)

Section Cylinder.

Import Conduction.
Local Open Scope R_scope.
Local Open Scope py_scope.

Lemma ln_ratio_neq_0 (Di Do : R) :
  Di <> 0 -> 0 < Do / Di -> Do <> Di -> ln (Do / Di) <> 0.
Proof.
  intros HDi Hq Hne. apply ln_neq_0; [ | exact Hq].
  intros E. apply Hne. now apply Rdiv_eq_1 in E.
Qed.

(** The call on a well-formed shell: no step raises. *)
Lemma R_cylinder_returns (Di Do k L : R) :
  Di <> 0 -> 0 < Do / Di -> Do <> Di -> k <> 0 -> L <> 0 ->
  R_cylinder Di Do k L = Ok (1 / (k * 2 * pi * L / ln (Do / Di))).
Proof.
  intros HDi Hq Hne Hk HL.
  pose proof (ln_ratio_neq_0 Di Do HDi Hq Hne) as Hln.
  assert (Hpi : pi <> 0) by apply PI_neq0.
  unfold R_cylinder.
  rewrite div_nonzero by exact HDi. rewrite bind_Ok.
  rewrite log_pos by exact Hq. rewrite bind_Ok.
  rewrite div_nonzero by exact Hln. rewrite bind_Ok.
  rewrite div_nonzero by nonzero. now rewrite bind_Ok.
Qed.

Lemma R_cylinder_closed_form (q k L : R) :
  ln q <> 0 -> k <> 0 -> L <> 0 ->
  1 / (k * 2 * pi * L / ln q) = ln q / (2 * PI * L * k).
Proof.
  intros Hln Hk HL. unfold pi. field. repeat split; try assumption. apply PI_neq0.
Qed.

(** Inner diameter zero: [Do/Di] raises. *)
Lemma R_cylinder_Di_zero (Do k L : R) :
  R_cylinder 0 Do k L = Raise ZeroDivisionError.
Proof.
  unfold R_cylinder. now rewrite div_zero.
Qed.

(** A ratio of diameters that is not positive: [math.log] raises. *)
Lemma R_cylinder_log_domain (Di Do k L : R) :
  Di <> 0 -> Do / Di <= 0 -> R_cylinder Di Do k L = Raise ValueError.
Proof.
  intros HDi Hq. unfold R_cylinder.
  rewrite div_nonzero by exact HDi. rewrite bind_Ok.
  now rewrite log_nonpos by exact Hq.
Qed.

(** Equal diameters: the divisor [log(Do/Di)] is zero and the division
    raises. *)
Lemma R_cylinder_equal_diameters (D k L : R) :
  D <> 0 -> R_cylinder D D k L = Raise ZeroDivisionError.
Proof.
  intros HD. unfold R_cylinder.
  rewrite div_nonzero by exact HD. rewrite bind_Ok.
  replace (D / D) with 1 by now field.
  rewrite log_pos by lra. rewrite bind_Ok.
  rewrite ln_1. now rewrite div_zero.
Qed.

(** A zero conductivity or length makes [hA] zero, and [1./hA] raises. *)
Lemma R_cylinder_hA_zero (Di Do k L : R) :
  Di <> 0 -> 0 < Do / Di -> Do <> Di -> k * L = 0 ->
  R_cylinder Di Do k L = Raise ZeroDivisionError.
Proof.
  intros HDi Hq Hne HkL.
  pose proof (ln_ratio_neq_0 Di Do HDi Hq Hne) as Hln.
  unfold R_cylinder.
  rewrite div_nonzero by exact HDi. rewrite bind_Ok.
  rewrite log_pos by exact Hq. rewrite bind_Ok.
  rewrite div_nonzero by exact Hln. rewrite bind_Ok.
  replace (k * 2 * pi * L / ln (Do / Di)) with 0.
  - now rewrite div_zero.
  - replace (k * 2 * pi * L) with (k * L * (2 * pi)) by ring.
    rewrite HkL. now field.
Qed.

(** Over exact arithmetic: every call of [R_cylinder], case by case. *)
Lemma R_cylinder_cases (Di Do k L : R) :
  R_cylinder Di Do k L
  = if Req_dec_T Di 0 then Raise ZeroDivisionError
    else if Rlt_dec 0 (Do / Di) then
           if Req_dec_T Do Di then Raise ZeroDivisionError
           else if Req_dec_T (k * L) 0 then Raise ZeroDivisionError
                else Ok (ln (Do / Di) / (2 * PI * L * k))
         else Raise ValueError.
Proof.
  destruct (Req_dec_T Di 0) as [-> | HDi]; [apply R_cylinder_Di_zero | ].
  destruct (Rlt_dec 0 (Do / Di)) as [Hq | Hq];
    [ | apply R_cylinder_log_domain; [exact HDi | lra]].
  destruct (Req_dec_T Do Di) as [-> | Hne];
    [now apply R_cylinder_equal_diameters | ].
  destruct (Req_dec_T (k * L) 0) as [HkL | HkL];
    [now apply R_cylinder_hA_zero | ].
  assert (Hk : k <> 0) by (intros ->; apply HkL; ring).
  assert (HL : L <> 0) by (intros ->; apply HkL; ring).
  rewrite R_cylinder_returns by assumption.
  f_equal. apply R_cylinder_closed_form; try assumption.
  now apply ln_ratio_neq_0.
Qed.

Lemma R_cylinder_ordered (Di Do k L : R) :
  0 < Di -> Di < Do -> k <> 0 -> L <> 0 ->
  R_cylinder Di Do k L = Ok (ln (Do / Di) / (2 * PI * L * k)).
Proof.
  intros HDi Hlt Hk HL.
  assert (Hq : 0 < Do / Di) by (apply Rdiv_pos_pos; lra).
  rewrite R_cylinder_returns by (assumption || lra).
  f_equal. apply R_cylinder_closed_form; try assumption.
  apply ln_ratio_neq_0; lra.
Qed.

(** The docstring's shell, [R_cylinder(0.9, 1., 20, 10)]: the value
    [ln(10/9)/(400*PI)] and its first fifteen significant digits. *)
Lemma R_cylinder_example_enclosure :
  Rabs (ln (1 / 0.9) / (2 * PI * 10 * 20) - 8.38432343682705e-05) < 5e-20.
Proof.
  replace (1 / 0.9) with (10 / 9) by lra.
  pose proof ln_10_9_bounds as [Hl1 Hl2].
  pose proof PI_bounds as [Hp1 Hp2].
  set (l := ln (10 / 9)) in *. clearbody l.
  assert (Hd : 0 < 2 * PI * 10 * 20) by lra.
  assert (E : l / (2 * PI * 10 * 20) * (2 * PI * 10 * 20) = l) by (field; lra).
  apply Rabs_def1.
  - apply Rplus_lt_reg_r with 8.38432343682705e-05.
    apply Rmult_lt_reg_r with (2 * PI * 10 * 20); [exact Hd | ].
    replace ((l / (2 * PI * 10 * 20) - 8.38432343682705e-05 + 8.38432343682705e-05)
             * (2 * PI * 10 * 20))
      with (l / (2 * PI * 10 * 20) * (2 * PI * 10 * 20)) by ring.
    rewrite E. lra.
  - apply Rplus_lt_reg_r with 8.38432343682705e-05.
    apply Rmult_lt_reg_r with (2 * PI * 10 * 20); [exact Hd | ].
    replace ((l / (2 * PI * 10 * 20) - 8.38432343682705e-05 + 8.38432343682705e-05)
             * (2 * PI * 10 * 20))
      with (l / (2 * PI * 10 * 20) * (2 * PI * 10 * 20)) by ring.
    rewrite E. lra.
Qed.

(** C3, as amended.  Over exact arithmetic, for [Do > Di > 0], [k > 0] and
    [L > 0], [R_cylinder(Di, Do, k, L)] returns [ln(Do/Di)/(2*pi*L*k)], and
    for [(0.9, 1.0, 20, 10)] that number is within [5e-20] of
    [8.38432343682705e-05].  On binary64 floats the call returns the rounded
    [1/((k*2*pi*L)/log(Do/Di))], every operation rounded, unless [Di],
    [log(Do/Di)] or [hA] is a zero, when it raises [ZeroDivisionError], or
    [math.log] raises.  So a well-formed shell can raise: with
    [k = L = 1e-200] the product [k*2*pi*L] underflows to [0.0] and [1./hA]
    raises [ZeroDivisionError], whatever positive value the logarithm of
    [2.0] has.  For the docstring's shell [Do/Di] is [1.1111111111111112];
    the float nearest to its logarithm is [0.10536051565782635], and given
    that [math.log] returns it, [R_cylinder(0.9, 1.0, 20, 10)] is
    [8.38432343682705e-05] digit for digit. *)
Theorem C3_R_cylinder_formula :
  (forall Di Do k L : R, 0 < Di -> Di < Do -> 0 < k -> 0 < L ->
     R_cylinder Di Do k L = Ok (ln (Do / Di) / (2 * PI * L * k)))
  /\ (exists r : R,
        R_cylinder 0.9 1 20 10 = Ok r
        /\ Rabs (r - 8.38432343682705e-05) < 5e-20)
  /\ (forall (log : float -> result float) (Di Do k L : float),
        Binary64.R_cylinder log Di Do k L
        = if (Di =? 0)%float then Raise ZeroDivisionError
          else match log (Do / Di)%float with
               | Raise e => Raise e
               | Ok l =>
                   if (l =? 0)%float then Raise ZeroDivisionError
                   else if (k * 2 * Binary64.pi * L / l =? 0)%float
                        then Raise ZeroDivisionError
                        else Ok (1 / (k * 2 * Binary64.pi * L / l))%float
               end)
  /\ (1e-200 * 2 * Binary64.pi * 1e-200)%float = 0%float
  /\ 0 < ln (Rounding.to_R 2)
  /\ (forall (log : float -> result float) (l : float),
        log 2%float = Ok l -> (0 <? l)%float = true ->
        Binary64.R_cylinder log 1 2 1e-200 1e-200 = Raise ZeroDivisionError)
  /\ (1 / 0.9)%float = 1.1111111111111112%float
  /\ Rounding.nearest (ln (Rounding.to_R 1.1111111111111112)) 0.10536051565782635
  /\ (forall log : float -> result float,
        log 1.1111111111111112%float = Ok 0.10536051565782635%float ->
        Binary64.R_cylinder log 0.9 1 20 10 = Ok 8.38432343682705e-05%float).
Proof.
  repeat apply conj; try reflexivity.
  - intros Di Do k L HDi Hlt Hk HL. apply R_cylinder_ordered; lra.
  - eexists. split.
    + apply R_cylinder_ordered; lra.
    + exact R_cylinder_example_enclosure.
  - exact binary64_R_cylinder_cases.
  - exact (proj2 math_log_one_two).
  - intros log l Hlog Hl.
    apply (binary64_R_cylinder_zero_numerator log 1 2 1e-200 1e-200 l);
      [reflexivity | exact Hlog | exact Hl].
  - exact (proj1 (proj1 math_log_shell_values)).
  - exact (proj2 (proj1 math_log_shell_values)).
  - intros log Hlog. rewrite binary64_R_cylinder_cases.
    change (1 / 0.9)%float with 1.1111111111111112%float.
    now rewrite Hlog.
Qed.

Lemma C3_R_cylinder_formula_witness :
  ((0 < 1 /\ 1 < 2 /\ 0 < 3 /\ 0 < 4)
   /\ R_cylinder 1 2 3 4 = Ok (ln (2 / 1) / (2 * PI * 4 * 3)))
  /\ ((0 <? 0.6931471805599453)%float = true
      /\ Binary64.R_cylinder (fun _ => Ok 0.6931471805599453%float) 1 2 1e-200 1e-200
         = Raise ZeroDivisionError).
Proof.
  assert (H1 : 0 < 1) by lra.
  assert (H2 : 1 < 2) by lra.
  assert (H3 : 0 < 3) by lra.
  assert (H4 : 0 < 4) by lra.
  assert (Hl : (0 <? 0.6931471805599453)%float = true) by reflexivity.
  pose proof C3_R_cylinder_formula as (Hreal & _ & _ & _ & _ & Hunder & _).
  split; split.
  - repeat split; assumption.
  - exact (Hreal 1 2 3 4 H1 H2 H3 H4).
  - exact Hl.
  - exact (Hunder (fun _ => Ok 0.6931471805599453%float) 0.6931471805599453%float
             eq_refl Hl).
Defined.

(** C3 as stated fails on floats: [Di = 1.], [Do = 2.] and [k = L = 1e-200]
    are a well-formed shell ([Do > Di > 0], [k > 0], [L > 0]), yet the product
    [k*2*pi*L] underflows to [0.0], so [hA] is [0.0] and [1./hA] raises
    [ZeroDivisionError], whatever positive float [math.log(2.)] is; and
    whatever [math.log] does, the call returns no number. *)
Lemma C3_binary64_underflow_raises :
  ((0 <? 1)%float = true /\ (1 <? 2)%float = true /\ (0 <? 1e-200)%float = true)
  /\ (1e-200 * 2 * Binary64.pi * 1e-200)%float = 0%float
  /\ (forall (log : float -> result float) (l : float),
        log 2%float = Ok l -> (0 <? l)%float = true ->
        Binary64.R_cylinder log 1 2 1e-200 1e-200 = Raise ZeroDivisionError)
  /\ (forall (log : float -> result float) (r : float),
        Binary64.R_cylinder log 1 2 1e-200 1e-200 = Ok r -> r = nan).
Proof.
  repeat apply conj; try reflexivity.
  - intros log l Hlog Hl.
    apply (binary64_R_cylinder_zero_numerator log 1 2 1e-200 1e-200 l);
      [reflexivity | exact Hlog | exact Hl].
  - intros log r. rewrite binary64_R_cylinder_cases.
    change (1 =? 0)%float with false. cbv iota.
    change (1e-200 * 2 * Binary64.pi * 1e-200)%float with 0%float.
    destruct (log (2 / 1)%float) as [l | e]; [ | discriminate].
    destruct (l =? 0)%float; [discriminate | ].
    destruct (binary64_div_zero_l l) as [Hz | Hn].
    + rewrite Hz. discriminate.
    + rewrite Hn. change (nan =? 0)%float with false. cbv iota.
      intros H.
      apply (f_equal (fun c => match c with Ok z => z | Raise _ => nan end)) in H.
      rewrite <- H. apply binary64_div_nan_r.
Qed.

(** C10, as amended.  Over exact arithmetic, for positive, distinct diameters
    and non-zero [k] and [L], both calls return and
    [R_cylinder(Do, Di, k, L)] is [-R_cylinder(Di, Do, k, L)]; with [Do < Di]
    and [k], [L] positive the value returned is negative.  On binary64 floats
    neither holds for all such inputs.  [Do/Di] and [Di/Do] are rounded
    separately: at the docstring's shell the two results are
    [8.38432343682705e-05] and [-8.384323436827045e-05], given that
    [math.log(1.1111111111111112)] is [0.10536051565782635] and
    [math.log(0.9)] is [-0.10536051565782628], the floats nearest to the two
    logarithms.  And for [Di = 1e200], [Do = 1e-200] the quotient [Do/Di] is
    [0.0]; as [math.log] raises [ValueError] at [0.0], so does the call, for
    every [k] and [L]. *)
Theorem C10_R_cylinder_swap :
  (forall Di Do k L : R,
     0 < Di -> 0 < Do -> Di <> Do -> k <> 0 -> L <> 0 ->
     exists r : R,
       R_cylinder Di Do k L = Ok r
       /\ R_cylinder Do Di k L = Ok (- r)
       /\ (Do < Di -> 0 < k -> 0 < L -> r < 0))
  /\ (forall log : float -> result float,
        log 1.1111111111111112%float = Ok 0.10536051565782635%float ->
        log 0.9%float = Ok (-0.10536051565782628)%float ->
        Binary64.R_cylinder log 0.9 1 20 10 = Ok 8.38432343682705e-05%float
        /\ Binary64.R_cylinder log 1 0.9 20 10 = Ok (-8.384323436827045e-05)%float)
  /\ (- 8.38432343682705e-05 =? -8.384323436827045e-05)%float = false
  /\ ((1 / 0.9)%float = 1.1111111111111112%float /\ (0.9 / 1)%float = 0.9%float)
  /\ Rounding.nearest (ln (Rounding.to_R 1.1111111111111112)) 0.10536051565782635
  /\ Rounding.nearest (ln (Rounding.to_R 0.9)) (-0.10536051565782628)
  /\ (1e-200 / 1e200)%float = 0%float
  /\ (forall (log : float -> result float) (k L : float),
        log 0%float = Raise ValueError ->
        Binary64.R_cylinder log 1e200 1e-200 k L = Raise ValueError).
Proof.
  repeat apply conj; try reflexivity;
    try exact (proj1 (proj1 math_log_shell_values));
    try exact (proj2 (proj1 math_log_shell_values));
    try exact (proj1 (proj2 math_log_shell_values));
    try exact (proj2 (proj2 math_log_shell_values)).
  - intros Di Do k L HDi HDo Hne Hk HL.
    assert (Hq : 0 < Do / Di) by now apply Rdiv_pos_pos.
    assert (Hq' : 0 < Di / Do) by now apply Rdiv_pos_pos.
    assert (Hne' : Do <> Di) by (intros E; now apply Hne).
    assert (Hln : ln (Do / Di) <> 0) by (apply ln_ratio_neq_0; lra).
    exists (ln (Do / Di) / (2 * PI * L * k)).
    split; [ | split].
    + rewrite R_cylinder_returns by (assumption || lra).
      f_equal. now apply R_cylinder_closed_form.
    + rewrite R_cylinder_returns by (assumption || lra).
      f_equal. rewrite R_cylinder_closed_form; try assumption.
      * rewrite (ln_swap Di Do) by assumption. field.
        repeat split; try assumption. apply PI_neq0.
      * rewrite (ln_swap Di Do) by assumption. lra.
    + intros Hlt Hk0 HL0.
      assert (Hneg : ln (Do / Di) < 0).
      { rewrite <- ln_1. apply ln_increasing; [exact Hq | ].
        apply Rmult_lt_reg_r with Di; [exact HDi | ].
        replace (Do / Di * Di) with Do by (field; lra). lra. }
      assert (Hden : 0 < 2 * PI * L * k).
      { pose proof PI_RGT_0.
        apply Rmult_lt_0_compat; [apply Rmult_lt_0_compat; [lra | exact HL0] | exact Hk0]. }
      unfold Rdiv.
      replace (ln (Do * / Di) * / (2 * PI * L * k))
        with (- ((- ln (Do * / Di)) * / (2 * PI * L * k))) by ring.
      apply Ropp_lt_gt_0_contravar. apply Rmult_lt_0_compat.
      * unfold Rdiv in Hneg. lra.
      * now apply Rinv_0_lt_compat.
  - exact binary64_R_cylinder_docstring_shell.
  - exact binary64_R_cylinder_ratio_underflow.
Qed.

Lemma C10_R_cylinder_swap_witness :
  (0 < 2 /\ 0 < 1 /\ 2 <> 1 /\ 3 <> 0 /\ 4 <> 0)
  /\ exists r : R,
       R_cylinder 2 1 3 4 = Ok r
       /\ R_cylinder 1 2 3 4 = Ok (- r)
       /\ (1 < 2 -> 0 < 3 -> 0 < 4 -> r < 0).
Proof.
  assert (H2 : 0 < 2) by lra.
  assert (H1 : 0 < 1) by lra.
  assert (Hne : 2 <> 1) by lra.
  assert (H3 : 3 <> 0) by lra.
  assert (H4 : 4 <> 0) by lra.
  split; [repeat split; assumption
         | exact (proj1 C10_R_cylinder_swap 2 1 3 4 H2 H1 Hne H3 H4)].
Defined.

(** C10 as stated fails on floats: [Di = 1e200] and [Do = 1e-200] are
    positive and distinct, yet [Do/Di] underflows to [0.0] and [math.log]
    raises [ValueError] on it, for every [k] and [L]: no negative resistance
    is returned.  And at the docstring's shell the two results, which both
    come back, are not opposite. *)
Lemma C10_binary64_swap_fails :
  ((0 <? 1e200)%float = true /\ (0 <? 1e-200)%float = true
   /\ (1e200 =? 1e-200)%float = false)
  /\ (1e-200 / 1e200)%float = 0%float
  /\ (forall (log : float -> result float) (k L : float),
        log 0%float = Raise ValueError ->
        Binary64.R_cylinder log 1e200 1e-200 k L = Raise ValueError)
  /\ (forall log : float -> result float,
        log 1.1111111111111112%float = Ok 0.10536051565782635%float ->
        log 0.9%float = Ok (-0.10536051565782628)%float ->
        exists a b : float,
          Binary64.R_cylinder log 0.9 1 20 10 = Ok a
          /\ Binary64.R_cylinder log 1 0.9 20 10 = Ok b
          /\ (b =? - a)%float = false).
Proof.
  repeat apply conj; try reflexivity.
  - exact binary64_R_cylinder_ratio_underflow.
  - intros log H1 H2.
    destruct (binary64_R_cylinder_docstring_shell log H1 H2) as [Ha Hb].
    exists 8.38432343682705e-05%float, (-8.384323436827045e-05)%float.
    repeat split; [exact Ha | exact Hb].
Qed.

End Cylinder.

(** ** Inputs outside the physical domain *)

Section DomainErrors.

Import Conduction.
Local Open Scope R_scope.
Local Open Scope py_scope.

(** C4, as amended.  A zero denominator never gives an infinity or a NaN:
    Python's float division raises [ZeroDivisionError].  On binary64 floats
    each function raises [ZeroDivisionError] exactly when a divisor it
    computes is a zero, of either sign: the rounded [A*R] in [R_to_k], [k*A]
    in [k_to_R], the argument of the two resistivity conversions and of
    [k_to_R_value], the scaled resistivity in [R_value_to_k] (both with the
    constants as scipy derives them), and in [R_cylinder] [Di], [log(Do/Di)]
    or [hA]; an exception raised by [math.log] is passed on.  With [Do == Di]
    finite and not zero, [Do/Di] is exactly [1.0], whose logarithm is exactly
    [0.0], and given that [math.log] returns it, [R_cylinder] raises
    [ZeroDivisionError].  Every other divisor, a
    negative one included (a float below zero is not a zero), gives the
    rounded quotient: [1/(-2.)] is [-0.5].  An infinity or a NaN can still
    come back when the divisor is not a zero: [1/(-1e-320)] is [-inf] and
    [R_to_k(0., 1., inf)] is NaN. *)
Theorem C4_invalid_inputs_raise :
  (forall x t A : float,
     Binary64.R_to_k x t A
     = if (A * x =? 0)%float then Raise ZeroDivisionError else Ok (t / (A * x))%float)
  /\ (forall k t A : float,
        Binary64.k_to_R k t A
        = if (k * A =? 0)%float then Raise ZeroDivisionError else Ok (t / (k * A))%float)
  /\ (forall k : float,
        Binary64.k_to_thermal_resistivity k
        = if (k =? 0)%float then Raise ZeroDivisionError else Ok (1 / k)%float)
  /\ (forall r : float,
        Binary64.thermal_resistivity_to_k r
        = if (r =? 0)%float then Raise ZeroDivisionError else Ok (1 / r)%float)
  /\ (forall (x : float) (SI : bool),
        Binary64.R_value_to_k Binary64.scipy x SI
        = let r := (if SI then x / Binary64.inch Binary64.scipy
                    else x * (Binary64.foot Binary64.scipy * Binary64.foot Binary64.scipy)
                         * Binary64.degree_Fahrenheit Binary64.scipy
                         * Binary64.hour Binary64.scipy
                         / Binary64.Btu Binary64.scipy / Binary64.inch Binary64.scipy)%float in
          if (r =? 0)%float then Raise ZeroDivisionError else Ok (1 / r)%float)
  /\ (forall (k : float) (SI : bool),
        Binary64.k_to_R_value Binary64.scipy k SI
        = if (k =? 0)%float then Raise ZeroDivisionError
          else Ok (if SI then 1 / k * Binary64.inch Binary64.scipy
                   else 1 / k
                        / (Binary64.foot Binary64.scipy * Binary64.foot Binary64.scipy
                           * Binary64.degree_Fahrenheit Binary64.scipy
                           * Binary64.hour Binary64.scipy
                           / Binary64.Btu Binary64.scipy
                           / Binary64.inch Binary64.scipy))%float)
  /\ (forall (log : float -> result float) (Di Do k L : float),
        Binary64.R_cylinder log Di Do k L
        = if (Di =? 0)%float then Raise ZeroDivisionError
          else match log (Do / Di)%float with
               | Raise e => Raise e
               | Ok l =>
                   if (l =? 0)%float then Raise ZeroDivisionError
                   else if (k * 2 * Binary64.pi * L / l =? 0)%float
                        then Raise ZeroDivisionError
                        else Ok (1 / (k * 2 * Binary64.pi * L / l))%float
               end)
  /\ (forall (log : float -> result float) (D k L : float),
        (D =? 0)%float = false -> Binary64.is_finite D = true ->
        log 1%float = Ok 0%float ->
        (D / D)%float = 1%float
        /\ Binary64.R_cylinder log D D k L = Raise ZeroDivisionError)
  /\ ln (Rounding.to_R 1) = Rounding.to_R 0
  /\ (forall d : float, (d <? 0)%float = true -> (d =? 0)%float = false)
  /\ Binary64.k_to_thermal_resistivity (-2)%float = Ok (-0.5)%float
  /\ Binary64.k_to_thermal_resistivity (-1e-320)%float = Ok neg_infinity
  /\ Binary64.R_to_k 0 1 infinity = Ok nan.
Proof.
  repeat apply conj; try reflexivity.
  - exact binary64_R_to_k_cases.
  - exact binary64_k_to_R_cases.
  - exact binary64_k_to_thermal_resistivity_cases.
  - exact binary64_thermal_resistivity_to_k_cases.
  - intros x SI.
    exact (binary64_R_value_to_k_cases Binary64.scipy x SI
             scipy_inch_nonzero scipy_Btu_nonzero).
  - exact scipy_k_to_R_value_cases.
  - exact binary64_R_cylinder_cases.
  - intros log D k L Hz Hf Hlog. split.
    + now apply binary64_div_self.
    + now apply binary64_R_cylinder_equal_diameters.
  - exact (proj1 math_log_one_two).
  - exact binary64_negative_nonzero.
Qed.

Lemma C4_invalid_inputs_raise_witness :
  (((2 =? 0)%float = false /\ Binary64.is_finite 2 = true)
   /\ Binary64.R_cylinder (fun x => Ok (x - 1)%float) 2 2 3 4 = Raise ZeroDivisionError)
  /\ ((-2 <? 0)%float = true /\ (-2 =? 0)%float = false).
Proof.
  assert (Hz : (2 =? 0)%float = false) by reflexivity.
  assert (Hf : Binary64.is_finite 2 = true) by reflexivity.
  assert (Hn : (-2 <? 0)%float = true) by reflexivity.
  pose proof C4_invalid_inputs_raise as (_ & _ & _ & _ & _ & _ & _ & Hd & _ & Hneg & _).
  split; split.
  - split; assumption.
  - exact (proj2 (Hd (fun x => Ok (x - 1)%float) 2%float 3%float 4%float Hz Hf eq_refl)).
  - exact Hn.
  - exact (Hneg (-2)%float Hn).
Defined.

(** C4 as stated fails: with [Do == Di] the call raises instead of returning
    an infinity or a NaN, on the reals and, for the reciprocal of zero, on
    binary64 floats; and a negative divisor gives a finite float. *)
Lemma C4_equal_diameters_raise :
  R_cylinder 1 1 20 10 = Raise ZeroDivisionError
  /\ ~ returns (R_cylinder 1 1 20 10)
  /\ Binary64.k_to_thermal_resistivity 0%float = Raise ZeroDivisionError
  /\ ~ returns (Binary64.k_to_thermal_resistivity 0%float)
  /\ Binary64.k_to_thermal_resistivity (-2)%float = Ok (-0.5)%float
  /\ Binary64.is_finite (-0.5)%float = true.
Proof.
  assert (H1 : 1 <> 0) by lra.
  repeat apply conj; try reflexivity.
  - now apply R_cylinder_equal_diameters.
  - intros [r Hr]. rewrite R_cylinder_equal_diameters in Hr by exact H1. discriminate.
  - intros [r Hr]. discriminate.
Qed.

End DomainErrors.

(** * Further properties of the conversions

    The sections [Slab], [Units] and [Shell] are about the formulas over exact
    arithmetic, that is about [Conduction]: the identities of the physics,
    which the floats follow up to rounding and only while nothing overflows
    or underflows.  The sections [Binary64Signs], [Binary64Odd],
    [Binary64NotNegative], [Binary64NaN] and [Binary64ZeroResult] are about
    the floats themselves. *)

(** ** Slabs over exact arithmetic: [R_to_k] and [k_to_R] together *)

Section Slab.

Import Conduction.
Local Open Scope R_scope.
Local Open Scope py_scope.

(** Over exact arithmetic the two slab conversions undo each other in both
    orders, for inputs of either sign, as long as none is zero.  With a zero
    thickness the first conversion returns 0 and the second one raises. *)
Lemma slab_round_trips :
  (forall R' t A : R, R' <> 0 -> t <> 0 -> A <> 0 ->
     (k <- R_to_k R' t A ;; k_to_R k t A) = Ok R'
     /\ (r <- k_to_R R' t A ;; R_to_k r t A) = Ok R')
  /\ (forall R' A : R, R' <> 0 -> A <> 0 ->
        R_to_k R' 0 A = Ok 0
        /\ (k <- R_to_k R' 0 A ;; k_to_R k 0 A) = Raise ZeroDivisionError
        /\ (r <- k_to_R R' 0 A ;; R_to_k r 0 A) = Raise ZeroDivisionError).
Proof.
  split.
  - intros R' t A HR Ht HA. split.
    + rewrite R_to_k_nonzero by assumption. rewrite bind_Ok.
      rewrite k_to_R_nonzero by nonzero.
      f_equal. field. repeat split; assumption.
    + rewrite k_to_R_nonzero by assumption. rewrite bind_Ok.
      rewrite R_to_k_nonzero by nonzero.
      f_equal. field. repeat split; assumption.
  - intros R' A HR HA.
    rewrite R_to_k_nonzero, k_to_R_nonzero by assumption. rewrite !bind_Ok.
    repeat split.
    + f_equal. unfold Rdiv. ring.
    + apply k_to_R_zero_divisor. unfold Rdiv. ring.
    + apply R_to_k_zero_divisor. unfold Rdiv. ring.
Qed.

Lemma slab_round_trips_witness :
  (-2 <> 0 /\ 3 <> 0 /\ 4 <> 0)
  /\ (k <- R_to_k (-2) 3 4 ;; k_to_R k 3 4) = Ok (-2)
  /\ (r <- k_to_R (-2) 3 4 ;; R_to_k r 3 4) = Ok (-2).
Proof.
  assert (H2 : -2 <> 0) by lra.
  assert (H3 : 3 <> 0) by lra.
  assert (H4 : 4 <> 0) by lra.
  split; [repeat split; assumption | exact (proj1 slab_round_trips (-2) 3 4 H2 H3 H4)].
Defined.

(** Only the product of resistance and area matters, and the two play the
    same part: [R_to_k(R, t, A)] is [R_to_k(A*R, t)] with the default area and
    is [R_to_k(A, t, R)], on every input, the raising ones included. *)
Lemma R_to_k_area_product (R' t A : R) :
  R_to_k R' t A = R_to_k (A * R') t default_A
  /\ R_to_k R' t A = R_to_k A t R'.
Proof.
  unfold R_to_k, default_A. split.
  - now rewrite Rmult_1_l.
  - now rewrite (Rmult_comm A R').
Qed.

(** Over exact arithmetic, layers of one material in series: the resistance
    of a slab of thickness [t1 + t2] is the sum of the resistances of its two
    layers. *)
Lemma k_to_R_series (k t1 t2 A : R) :
  k <> 0 -> A <> 0 ->
  exists r1 r2 : R,
    k_to_R k t1 A = Ok r1 /\ k_to_R k t2 A = Ok r2
    /\ k_to_R k (t1 + t2) A = Ok (r1 + r2).
Proof.
  intros Hk HA. do 2 eexists.
  split; [now apply k_to_R_nonzero | ].
  split; [now apply k_to_R_nonzero | ].
  rewrite k_to_R_nonzero by assumption. f_equal. field. split; assumption.
Qed.

Lemma k_to_R_series_witness :
  (2 <> 0 /\ 5 <> 0)
  /\ exists r1 r2 : R,
       k_to_R 2 3 5 = Ok r1 /\ k_to_R 2 4 5 = Ok r2
       /\ k_to_R 2 (3 + 4) 5 = Ok (r1 + r2).
Proof.
  assert (H2 : 2 <> 0) by lra.
  assert (H5 : 5 <> 0) by lra.
  split; [split; assumption | exact (k_to_R_series 2 3 4 5 H2 H5)].
Defined.

(** Over exact arithmetic, two slabs of one material side by side: over the
    area [A1 + A2] the conductances [1/R] add. *)
Lemma k_to_R_parallel (k t A1 A2 : R) :
  0 < k -> 0 < t -> 0 < A1 -> 0 < A2 ->
  exists r1 r2 r : R,
    k_to_R k t A1 = Ok r1 /\ k_to_R k t A2 = Ok r2
    /\ k_to_R k t (A1 + A2) = Ok r
    /\ / r = / r1 + / r2.
Proof.
  intros Hk Ht H1 H2. do 3 eexists.
  split; [apply k_to_R_nonzero; lra | ].
  split; [apply k_to_R_nonzero; lra | ].
  split; [apply k_to_R_nonzero; lra | ].
  field. repeat split; lra.
Qed.

Lemma k_to_R_parallel_witness :
  (0 < 2 /\ 0 < 3 /\ 0 < 4 /\ 0 < 5)
  /\ exists r1 r2 r : R,
       k_to_R 2 3 4 = Ok r1 /\ k_to_R 2 3 5 = Ok r2
       /\ k_to_R 2 3 (4 + 5) = Ok r
       /\ / r = / r1 + / r2.
Proof.
  assert (H2 : 0 < 2) by lra.
  assert (H3 : 0 < 3) by lra.
  assert (H4 : 0 < 4) by lra.
  assert (H5 : 0 < 5) by lra.
  split; [repeat split; assumption | exact (k_to_R_parallel 2 3 4 5 H2 H3 H4 H5)].
Defined.

(** Over exact arithmetic, physical inputs give physical outputs: for
    positive [t] and [A] a positive resistance has a positive conductivity,
    and a larger resistance a strictly smaller one. *)
Lemma R_to_k_positive_decreasing (R1 R2 t A : R) :
  0 < R1 -> R1 < R2 -> 0 < t -> 0 < A ->
  exists k1 k2 : R,
    R_to_k R1 t A = Ok k1 /\ R_to_k R2 t A = Ok k2 /\ 0 < k2 /\ k2 < k1.
Proof.
  intros H1 H12 Ht HA. do 2 eexists.
  split; [apply R_to_k_nonzero; lra | ].
  split; [apply R_to_k_nonzero; lra | ].
  assert (P1 : 0 < A * R1) by (apply Rmult_lt_0_compat; lra).
  assert (P2 : 0 < A * R2) by (apply Rmult_lt_0_compat; lra).
  assert (P12 : A * R1 < A * R2) by (apply Rmult_lt_compat_l; lra).
  split.
  - now apply Rdiv_pos_pos.
  - unfold Rdiv. apply Rmult_lt_compat_l; [exact Ht | ].
    apply Rinv_lt_contravar; [now apply Rmult_lt_0_compat | exact P12].
Qed.

Lemma R_to_k_positive_decreasing_witness :
  (0 < 2 /\ 2 < 3 /\ 0 < 4 /\ 0 < 5)
  /\ exists k1 k2 : R,
       R_to_k 2 4 5 = Ok k1 /\ R_to_k 3 4 5 = Ok k2 /\ 0 < k2 /\ k2 < k1.
Proof.
  assert (H2 : 0 < 2) by lra.
  assert (H3 : 2 < 3) by lra.
  assert (H4 : 0 < 4) by lra.
  assert (H5 : 0 < 5) by lra.
  split; [repeat split; assumption
         | exact (R_to_k_positive_decreasing 2 3 4 5 H2 H3 H4 H5)].
Defined.

End Slab.

(** ** R-value conversions over exact arithmetic *)

Section Units.

Import Conduction.
Local Open Scope R_scope.
Local Open Scope py_scope.

Lemma k_to_R_value_result_nonzero (k : R) (SI : bool) :
  k <> 0 ->
  (if SI then 1 / k * inch
   else 1 / k / (foot ^ 2 * degree_Fahrenheit * hour / Btu / inch)) <> 0.
Proof.
  intros Hk. destruct SI; nonzero.
Qed.

(** Over exact arithmetic the R-value conversions undo each other in both
    orders for every non-zero input, negative ones included, provided the flag
    is the same. *)
Lemma R_value_round_trips (x : R) (SI : bool) :
  x <> 0 ->
  (k <- R_value_to_k x SI ;; k_to_R_value k SI) = Ok x
  /\ (v <- k_to_R_value x SI ;; R_value_to_k v SI) = Ok x.
Proof.
  intros Hx. split.
  - rewrite R_value_to_k_nonzero by exact Hx. rewrite bind_Ok.
    rewrite k_to_R_value_nonzero by now apply R_value_to_k_result_nonzero.
    f_equal. destruct SI; unfold inch, foot, hour, Btu, degree_Fahrenheit;
      field; repeat split; lra.
  - rewrite k_to_R_value_nonzero by exact Hx. rewrite bind_Ok.
    rewrite R_value_to_k_nonzero by now apply k_to_R_value_result_nonzero.
    f_equal. destruct SI; unfold inch, foot, hour, Btu, degree_Fahrenheit;
      field; repeat split; lra.
Qed.

Lemma R_value_round_trips_witness :
  -3 <> 0
  /\ (k <- R_value_to_k (-3) false ;; k_to_R_value k false) = Ok (-3)
  /\ (v <- k_to_R_value (-3) false ;; R_value_to_k v false) = Ok (-3).
Proof.
  assert (H : -3 <> 0) by lra.
  split; [exact H | exact (R_value_round_trips (-3) false H)].
Defined.

(** Over exact arithmetic, changing the unit system of an R-value: reading an
    Imperial R-value and writing it in SI multiplies it by
    [foot^2*degree_Fahrenheit*hour/Btu], about 0.1761101837; the other way
    round divides by that factor. *)
Lemma R_value_change_of_units (x : R) :
  x <> 0 ->
  (k <- R_value_to_k x false ;; k_to_R_value k true)
  = Ok (x * (foot ^ 2 * degree_Fahrenheit * hour / Btu))
  /\ (k <- R_value_to_k x true ;; k_to_R_value k false)
     = Ok (x / (foot ^ 2 * degree_Fahrenheit * hour / Btu))
  /\ Rabs (foot ^ 2 * degree_Fahrenheit * hour / Btu - 0.1761101837) < 1e-10.
Proof.
  intros Hx. repeat split.
  - rewrite R_value_to_k_nonzero by exact Hx. rewrite bind_Ok.
    rewrite k_to_R_value_nonzero
      by (apply (R_value_to_k_result_nonzero x false); exact Hx).
    f_equal. unfold inch, foot, hour, Btu, degree_Fahrenheit.
    field; repeat split; lra.
  - rewrite R_value_to_k_nonzero by exact Hx. rewrite bind_Ok.
    rewrite k_to_R_value_nonzero
      by (apply (R_value_to_k_result_nonzero x true); exact Hx).
    f_equal. unfold inch, foot, hour, Btu, degree_Fahrenheit.
    field; repeat split; lra.
  - unfold foot, hour, Btu, degree_Fahrenheit. apply Rabs_def1; lra.
Qed.

Lemma R_value_change_of_units_witness :
  2 <> 0
  /\ (k <- R_value_to_k 2 false ;; k_to_R_value k true)
     = Ok (2 * (foot ^ 2 * degree_Fahrenheit * hour / Btu)).
Proof.
  assert (H : 2 <> 0) by lra.
  split; [exact H | exact (proj1 (R_value_change_of_units 2 H))].
Defined.

(** Over exact arithmetic an SI R-value is the resistance of one inch of
    material over unit area: [R_value_to_k(x)] is [R_to_k(x, inch)] and
    [k_to_R_value(k)] is [k_to_R(k, inch)], for every real input, zero
    included (all four raise). *)
Lemma R_value_SI_is_inch_slab :
  (forall x : R, R_value_to_k x default_SI = R_to_k x inch default_A)
  /\ (forall k : R, k_to_R_value k default_SI = k_to_R k inch default_A).
Proof.
  unfold default_SI, default_A. split.
  - intros x. destruct (Req_dec_T x 0) as [-> | Hx].
    + rewrite R_value_to_k_zero. symmetry. apply R_to_k_zero_divisor. ring.
    + rewrite R_value_to_k_nonzero by exact Hx.
      rewrite R_to_k_nonzero by (assumption || lra).
      f_equal. unfold inch. field; repeat split; lra || assumption.
  - intros k. destruct (Req_dec_T k 0) as [-> | Hk].
    + rewrite k_to_R_value_zero. symmetry. apply k_to_R_zero_divisor. ring.
    + rewrite k_to_R_value_nonzero by exact Hk.
      rewrite k_to_R_nonzero by (assumption || lra).
      f_equal. unfold inch. field; repeat split; lra || assumption.
Qed.

(** Over exact arithmetic the scaling factors quoted in the docstring of
    [R_value_to_k] are the ones its formula applies: an SI R-value is
    multiplied by [1/inch], which is 39.37 to four digits, and an Imperial one
    by [foot^2*degree_Fahrenheit*hour/Btu/inch], which is 6.93347 to six
    digits, before the reciprocal is taken. *)
Lemma R_value_to_k_docstring_factors (x : R) :
  x <> 0 ->
  R_value_to_k x true = Ok (1 / (/ inch * x))
  /\ R_value_to_k x false
     = Ok (1 / (foot ^ 2 * degree_Fahrenheit * hour / Btu / inch * x))
  /\ Rabs (/ inch - 39.37) < 5e-3
  /\ Rabs (foot ^ 2 * degree_Fahrenheit * hour / Btu / inch - 6.93347) < 5e-6.
Proof.
  intros Hx. repeat split.
  - rewrite R_value_to_k_nonzero by exact Hx.
    f_equal. unfold inch. field; repeat split; lra || assumption.
  - rewrite R_value_to_k_nonzero by exact Hx.
    f_equal. unfold inch, foot, hour, Btu, degree_Fahrenheit.
    field; repeat split; lra || assumption.
  - unfold inch. apply Rabs_def1; lra.
  - unfold inch, foot, hour, Btu, degree_Fahrenheit. apply Rabs_def1; lra.
Qed.

Lemma R_value_to_k_docstring_factors_witness :
  2 <> 0 /\ R_value_to_k 2 true = Ok (1 / (/ inch * 2)).
Proof.
  assert (H : 2 <> 0) by lra.
  split; [exact H | exact (proj1 (R_value_to_k_docstring_factors 2 H))].
Defined.

(** Over exact arithmetic the six conversions fail in one way only.  Each
    returns a number exactly when no argument it divides by is zero ([t] and
    the flag play no part), and otherwise raises [ZeroDivisionError]; none
    raises [ValueError]. *)
Lemma conversions_return_iff :
  (forall R' t A : R, returns (R_to_k R' t A) <-> R' <> 0 /\ A <> 0)
  /\ (forall k t A : R, returns (k_to_R k t A) <-> k <> 0 /\ A <> 0)
  /\ (forall k : R, returns (k_to_thermal_resistivity k) <-> k <> 0)
  /\ (forall r : R, returns (thermal_resistivity_to_k r) <-> r <> 0)
  /\ (forall (x : R) (SI : bool), returns (R_value_to_k x SI) <-> x <> 0)
  /\ (forall (k : R) (SI : bool), returns (k_to_R_value k SI) <-> k <> 0)
  /\ (forall (x t A : R) (SI : bool),
        R_to_k x t A <> Raise ValueError
        /\ k_to_R x t A <> Raise ValueError
        /\ k_to_thermal_resistivity x <> Raise ValueError
        /\ thermal_resistivity_to_k x <> Raise ValueError
        /\ R_value_to_k x SI <> Raise ValueError
        /\ k_to_R_value x SI <> Raise ValueError).
Proof.
  repeat apply conj.
  - intros R' t A. split.
    + intros [k Hk]. split; intros ->;
        rewrite R_to_k_zero_divisor in Hk by ring; discriminate.
    + intros [HR HA]. eexists. now apply R_to_k_nonzero.
  - intros k t A. split.
    + intros [r Hr]. split; intros ->;
        rewrite k_to_R_zero_divisor in Hr by ring; discriminate.
    + intros [Hk HA]. eexists. now apply k_to_R_nonzero.
  - intros k. split.
    + intros [r Hr] ->.
      rewrite (proj2 (k_to_thermal_resistivity_raises_iff 0) eq_refl) in Hr.
      discriminate.
    + intros Hk. eexists. now apply k_to_thermal_resistivity_nonzero.
  - intros r. split.
    + intros [k Hk] ->.
      rewrite (proj2 (thermal_resistivity_to_k_raises_iff 0) eq_refl) in Hk.
      discriminate.
    + intros Hr. eexists. now apply thermal_resistivity_to_k_nonzero.
  - intros x SI. split.
    + intros [k Hk] ->. rewrite R_value_to_k_zero in Hk. discriminate.
    + intros Hx. eexists. now apply R_value_to_k_nonzero.
  - intros k SI. split.
    + intros [v Hv] ->. rewrite k_to_R_value_zero in Hv. discriminate.
    + intros Hk. eexists. now apply k_to_R_value_nonzero.
  - intros x t A SI.
    destruct (Req_dec_T x 0) as [-> | Hx].
    + rewrite !R_to_k_zero_divisor, !k_to_R_zero_divisor by ring.
      rewrite (proj2 (k_to_thermal_resistivity_raises_iff 0) eq_refl).
      rewrite (proj2 (thermal_resistivity_to_k_raises_iff 0) eq_refl).
      rewrite R_value_to_k_zero, k_to_R_value_zero.
      repeat split; discriminate.
    + rewrite k_to_thermal_resistivity_nonzero, thermal_resistivity_to_k_nonzero,
        R_value_to_k_nonzero, k_to_R_value_nonzero by exact Hx.
      destruct (Req_dec_T A 0) as [-> | HA].
      * rewrite R_to_k_zero_divisor, k_to_R_zero_divisor by ring.
        repeat split; discriminate.
      * rewrite R_to_k_nonzero, k_to_R_nonzero by assumption.
        repeat split; discriminate.
Qed.

End Units.

(** ** The cylindrical shell over exact arithmetic *)

Section Shell.

Import Conduction.
Local Open Scope R_scope.
Local Open Scope py_scope.

Lemma ln_lt_minus_1 (q : R) : 0 < q -> q <> 1 -> ln q < q - 1.
Proof.
  intros Hq Hne.
  assert (H : 1 + (q - 1) < exp (q - 1)) by (apply exp_ineq1; lra).
  replace (1 + (q - 1)) with q in H by ring.
  rewrite <- (ln_exp (q - 1)). now apply ln_increasing.
Qed.

Lemma ln_gt_1_minus_inv (q : R) : 0 < q -> q <> 1 -> 1 - / q < ln q.
Proof.
  intros Hq Hne.
  assert (Hi : 0 < / q) by now apply Rinv_0_lt_compat.
  assert (Hn : / q <> 1).
  { intros E. apply Hne. rewrite <- (Rinv_inv q), E. apply Rinv_1. }
  pose proof (ln_lt_minus_1 (/ q) Hi Hn) as H.
  rewrite ln_Rinv in H by exact Hq. lra.
Qed.

(** Over exact arithmetic, on a well-formed shell the resistance is positive,
    and a thicker wall around the same bore resists more. *)
Lemma R_cylinder_positive_increasing (Di Do1 Do2 k L : R) :
  0 < Di -> Di < Do1 -> Do1 < Do2 -> 0 < k -> 0 < L ->
  exists r1 r2 : R,
    R_cylinder Di Do1 k L = Ok r1 /\ R_cylinder Di Do2 k L = Ok r2
    /\ 0 < r1 /\ r1 < r2.
Proof.
  intros HDi H1 H12 Hk HL. do 2 eexists.
  split; [apply R_cylinder_ordered; lra | ].
  split; [apply R_cylinder_ordered; lra | ].
  assert (Hden : 0 < / (2 * PI * L * k)).
  { apply Rinv_0_lt_compat. pose proof PI_RGT_0.
    apply Rmult_lt_0_compat; [apply Rmult_lt_0_compat; [lra | exact HL] | exact Hk]. }
  assert (Hi : 0 < / Di) by now apply Rinv_0_lt_compat.
  assert (Hq1 : 1 < Do1 / Di).
  { unfold Rdiv. replace 1 with (Di * / Di) by (field; lra).
    apply Rmult_lt_compat_r; assumption. }
  assert (Hq12 : Do1 / Di < Do2 / Di).
  { unfold Rdiv. apply Rmult_lt_compat_r; assumption. }
  assert (Hl1 : 0 < ln (Do1 / Di)).
  { rewrite <- ln_1. apply ln_increasing; lra. }
  assert (Hl12 : ln (Do1 / Di) < ln (Do2 / Di)) by (apply ln_increasing; lra).
  split.
  - unfold Rdiv at 1. now apply Rmult_lt_0_compat.
  - unfold Rdiv at 1 3. now apply Rmult_lt_compat_r.
Qed.

Lemma R_cylinder_positive_increasing_witness :
  (0 < 1 /\ 1 < 2 /\ 2 < 3 /\ 0 < 4 /\ 0 < 5)
  /\ exists r1 r2 : R,
       R_cylinder 1 2 4 5 = Ok r1 /\ R_cylinder 1 3 4 5 = Ok r2
       /\ 0 < r1 /\ r1 < r2.
Proof.
  assert (H1 : 0 < 1) by lra.
  assert (H2 : 1 < 2) by lra.
  assert (H3 : 2 < 3) by lra.
  assert (H4 : 0 < 4) by lra.
  assert (H5 : 0 < 5) by lra.
  split; [repeat split; assumption
         | exact (R_cylinder_positive_increasing 1 2 3 4 5 H1 H2 H3 H4 H5)].
Defined.

(** Over exact arithmetic concentric shells of one material are resistances
    in series: the shell from [D1] to [D3] resists as much as the shells from
    [D1] to [D2] and from [D2] to [D3] together. *)
Lemma R_cylinder_shells_add (D1 D2 D3 k L : R) :
  0 < D1 -> D1 < D2 -> D2 < D3 -> k <> 0 -> L <> 0 ->
  exists r12 r23 : R,
    R_cylinder D1 D2 k L = Ok r12 /\ R_cylinder D2 D3 k L = Ok r23
    /\ R_cylinder D1 D3 k L = Ok (r12 + r23).
Proof.
  intros H1 H12 H23 Hk HL. do 2 eexists.
  split; [apply R_cylinder_ordered; (assumption || lra) | ].
  split; [apply R_cylinder_ordered; (assumption || lra) | ].
  rewrite R_cylinder_ordered by (assumption || lra).
  f_equal.
  replace (D3 / D1) with (D2 / D1 * (D3 / D2)) by (field; split; lra).
  rewrite ln_mult by (apply Rdiv_pos_pos; lra).
  field. repeat split; try assumption. apply PI_neq0.
Qed.

Lemma R_cylinder_shells_add_witness :
  (0 < 1 /\ 1 < 2 /\ 2 < 3 /\ 4 <> 0 /\ 5 <> 0)
  /\ exists r12 r23 : R,
       R_cylinder 1 2 4 5 = Ok r12 /\ R_cylinder 2 3 4 5 = Ok r23
       /\ R_cylinder 1 3 4 5 = Ok (r12 + r23).
Proof.
  assert (H1 : 0 < 1) by lra.
  assert (H2 : 1 < 2) by lra.
  assert (H3 : 2 < 3) by lra.
  assert (H4 : 4 <> 0) by lra.
  assert (H5 : 5 <> 0) by lra.
  split; [repeat split; assumption
         | exact (R_cylinder_shells_add 1 2 3 4 5 H1 H2 H3 H4 H5)].
Defined.

(** Over exact arithmetic only the ratio of the diameters matters, so they
    may be given in any common unit; and [k] and [L] enter through their
    product: the calls agree for all real inputs, the raising ones
    included. *)
Lemma R_cylinder_same_result (c Di Do k L : R) :
  c <> 0 ->
  R_cylinder (c * Di) (c * Do) k L = R_cylinder Di Do k L
  /\ R_cylinder Di Do L k = R_cylinder Di Do k L
  /\ R_cylinder Di Do (c * k) (L / c) = R_cylinder Di Do k L.
Proof.
  intros Hc. repeat split.
  - destruct (Req_dec_T Di 0) as [-> | HDi].
    + rewrite Rmult_0_r. now rewrite !R_cylinder_Di_zero.
    + unfold R_cylinder.
      rewrite !div_nonzero by nonzero. rewrite !bind_Ok.
      now replace (c * Do / (c * Di)) with (Do / Di) by (field; split; assumption).
  - unfold R_cylinder.
    now replace (L * 2 * pi * k) with (k * 2 * pi * L) by ring.
  - unfold R_cylinder.
    now replace (c * k * 2 * pi * (L / c)) with (k * 2 * pi * L) by (field; exact Hc).
Qed.

Lemma R_cylinder_same_result_witness :
  1000 <> 0 /\ R_cylinder (1000 * 0.9) (1000 * 1) 20 10 = R_cylinder 0.9 1 20 10.
Proof.
  assert (H : 1000 <> 0) by lra.
  split; [exact H | exact (proj1 (R_cylinder_same_result 1000 0.9 1 20 10 H))].
Defined.

(** Over exact arithmetic the shell lies between two flat walls of its own
    thickness [(Do - Di)/2]: it resists more than the wall spread over its
    outer surface [pi*Do*L] and less than the wall spread over its inner
    surface [pi*Di*L], both computed by [k_to_R]. *)
Lemma R_cylinder_between_slabs (Di Do k L : R) :
  0 < Di -> Di < Do -> 0 < k -> 0 < L ->
  exists r r_outer r_inner : R,
    R_cylinder Di Do k L = Ok r
    /\ k_to_R k ((Do - Di) / 2) (pi * Do * L) = Ok r_outer
    /\ k_to_R k ((Do - Di) / 2) (pi * Di * L) = Ok r_inner
    /\ r_outer < r /\ r < r_inner.
Proof.
  intros HDi Hlt Hk HL.
  pose proof PI_RGT_0 as Hpi.
  assert (Hq : 0 < Do / Di) by (apply Rdiv_pos_pos; lra).
  assert (Hq1 : Do / Di <> 1) by (intros E; apply Rdiv_eq_1 in E; lra).
  assert (HLk : 0 < L * k) by now apply Rmult_lt_0_compat.
  assert (Hden : 0 < / (2 * PI * L * k)).
  { apply Rinv_0_lt_compat.
    replace (2 * PI * L * k) with (2 * PI * (L * k)) by ring.
    apply Rmult_lt_0_compat; lra. }
  assert (HpDo : pi * Do * L <> 0).
  { unfold pi. apply Rgt_not_eq.
    apply Rmult_lt_0_compat; [apply Rmult_lt_0_compat; lra | lra]. }
  assert (HpDi : pi * Di * L <> 0).
  { unfold pi. apply Rgt_not_eq.
    apply Rmult_lt_0_compat; [apply Rmult_lt_0_compat; lra | lra]. }
  do 3 eexists.
  split; [apply R_cylinder_ordered; lra | ].
  split; [apply k_to_R_nonzero; [lra | exact HpDo] | ].
  split; [apply k_to_R_nonzero; [lra | exact HpDi] | ].
  split.
  - replace ((Do - Di) / 2 / (k * (pi * Do * L)))
      with ((1 - / (Do / Di)) * / (2 * PI * L * k))
      by (unfold pi; field; repeat split; lra).
    unfold Rdiv at 2. apply Rmult_lt_compat_r; [exact Hden | ].
    now apply ln_gt_1_minus_inv.
  - replace ((Do - Di) / 2 / (k * (pi * Di * L)))
      with ((Do / Di - 1) * / (2 * PI * L * k))
      by (unfold pi; field; repeat split; lra).
    unfold Rdiv at 1. apply Rmult_lt_compat_r; [exact Hden | ].
    now apply ln_lt_minus_1.
Qed.

Lemma R_cylinder_between_slabs_witness :
  (0 < 1 /\ 1 < 2 /\ 0 < 3 /\ 0 < 4)
  /\ exists r r_outer r_inner : R,
       R_cylinder 1 2 3 4 = Ok r
       /\ k_to_R 3 ((2 - 1) / 2) (pi * 2 * 4) = Ok r_outer
       /\ k_to_R 3 ((2 - 1) / 2) (pi * 1 * 4) = Ok r_inner
       /\ r_outer < r /\ r < r_inner.
Proof.
  assert (H1 : 0 < 1) by lra.
  assert (H2 : 1 < 2) by lra.
  assert (H3 : 0 < 3) by lra.
  assert (H4 : 0 < 4) by lra.
  split; [repeat split; assumption
         | exact (R_cylinder_between_slabs 1 2 3 4 H1 H2 H3 H4)].
Defined.

End Shell.

(** ** More on the binary64 model *)

Section Binary64Signs.

Local Open Scope float_scope.
Local Open Scope py_scope.

(** On floats the slab conversions are odd in the resistance (or
    conductivity) and in the thickness, bit for bit: negating either negates
    the result, and a call that raises still raises. *)
Lemma binary64_slab_odd (x t A : float) :
  Binary64.R_to_k (- x) t A = (k <- Binary64.R_to_k x t A ;; Ok (- k))
  /\ Binary64.R_to_k x (- t) A = (k <- Binary64.R_to_k x t A ;; Ok (- k))
  /\ Binary64.k_to_R (- x) t A = (r <- Binary64.k_to_R x t A ;; Ok (- r))
  /\ Binary64.k_to_R x (- t) A = (r <- Binary64.k_to_R x t A ;; Ok (- r)).
Proof.
  unfold Binary64.R_to_k, Binary64.k_to_R, Binary64.div.
  rewrite (binary64_mul_comm (- x) A), !binary64_mul_opp_r, !binary64_eqb_opp_zero.
  rewrite (binary64_mul_comm x A).
  destruct (A * x =? 0); cbn [bind];
    now rewrite ?binary64_div_opp_r, ?binary64_div_opp_l.
Qed.

(** The reciprocal conversions are odd on floats as well. *)
Lemma binary64_resistivity_odd (x : float) :
  Binary64.k_to_thermal_resistivity (- x)
  = (r <- Binary64.k_to_thermal_resistivity x ;; Ok (- r))
  /\ Binary64.thermal_resistivity_to_k (- x)
     = (k <- Binary64.thermal_resistivity_to_k x ;; Ok (- k)).
Proof.
  unfold Binary64.k_to_thermal_resistivity, Binary64.thermal_resistivity_to_k,
    Binary64.div.
  rewrite !binary64_eqb_opp_zero.
  destruct (x =? 0); cbn [bind]; now rewrite ?binary64_div_opp_r.
Qed.

(** When [R_to_k] raises on floats: exactly when the rounded product [A*R]
    is a zero, and never with another exception.  That covers more than a zero
    [R] or [A]: the product of two tiny non-zero numbers underflows to zero.
    A NaN resistance does not raise; it comes back as NaN. *)
Lemma binary64_R_to_k_raises :
  (forall x t A : float,
     Binary64.R_to_k x t A
     = if (A * x =? 0) then Raise ZeroDivisionError else Ok (t / (A * x)))
  /\ (forall x t A : float, Binary64.R_to_k x t A <> Raise ValueError)
  /\ ((1e-200 =? 0) = false
      /\ Binary64.R_to_k 1e-200 1 1e-200 = Raise ZeroDivisionError)
  /\ (forall t A : float, Binary64.R_to_k nan t A = Ok nan).
Proof.
  repeat apply conj; try reflexivity.
  - intros x t A. unfold Binary64.R_to_k, Binary64.div.
    now destruct (A * x =? 0).
  - intros x t A. unfold Binary64.R_to_k, Binary64.div.
    destruct (A * x =? 0); discriminate.
  - intros t A. unfold Binary64.R_to_k, Binary64.div.
    rewrite binary64_mul_nan_r. change (nan =? 0) with false. cbn [bind].
    now rewrite binary64_div_nan_r.
Qed.

End Binary64Signs.

(** ** Signs on floats: the R-value conversions and the shell *)

Section Binary64Odd.

Local Open Scope float_scope.
Local Open Scope py_scope.

(** On floats the two R-value conversions are odd, bit for bit, with either
    flag and whatever the unit constants are: negating the argument negates
    the value returned, and a call that raises still raises. *)
Lemma binary64_R_value_odd (c : Binary64.constants) (x : float) (SI : bool) :
  Binary64.R_value_to_k c (- x) SI
  = (k <- Binary64.R_value_to_k c x SI ;; Ok (- k))
  /\ Binary64.k_to_R_value c (- x) SI
     = (v <- Binary64.k_to_R_value c x SI ;; Ok (- v)).
Proof.
  unfold Binary64.R_value_to_k, Binary64.k_to_R_value,
    Binary64.thermal_resistivity_to_k, Binary64.k_to_thermal_resistivity, Binary64.div.
  rewrite !binary64_mul_opp_l, !binary64_eqb_opp_zero.
  split.
  - destruct SI.
    + destruct (Binary64.inch c =? 0); [reflexivity | ]. cbn [bind].
      rewrite binary64_div_opp_l, binary64_eqb_opp_zero.
      destruct (_ =? 0); cbn [bind]; now rewrite ?binary64_div_opp_r.
    + destruct (Binary64.Btu c =? 0); [reflexivity | ]. cbn [bind].
      destruct (Binary64.inch c =? 0); [reflexivity | ]. cbn [bind].
      rewrite !binary64_div_opp_l, binary64_eqb_opp_zero.
      destruct (_ =? 0); cbn [bind]; now rewrite ?binary64_div_opp_r.
  - destruct (x =? 0); [reflexivity | ]. cbn [bind].
    rewrite binary64_div_opp_r.
    destruct SI; cbn [bind].
    + now rewrite binary64_mul_opp_l.
    + destruct (Binary64.Btu c =? 0); [reflexivity | ]. cbn [bind].
      destruct (Binary64.inch c =? 0); [reflexivity | ]. cbn [bind].
      destruct (_ =? 0); cbn [bind]; now rewrite ?binary64_div_opp_l.
Qed.

(** On floats the resistance of a shell is odd in the conductivity and in the
    length, bit for bit and whatever the logarithm returns: negating [k] or
    [L] negates the value returned, and a call that raises still raises the
    same exception. *)
Lemma binary64_R_cylinder_odd (log : float -> result float) (Di Do k L : float) :
  Binary64.R_cylinder log Di Do (- k) L
  = (r <- Binary64.R_cylinder log Di Do k L ;; Ok (- r))
  /\ Binary64.R_cylinder log Di Do k (- L)
     = (r <- Binary64.R_cylinder log Di Do k L ;; Ok (- r)).
Proof.
  rewrite !binary64_R_cylinder_cases.
  rewrite !binary64_mul_opp_l, binary64_mul_opp_r.
  destruct (Di =? 0); [now split | ].
  destruct (log (Do / Di)) as [l | e]; [ | now split].
  destruct (l =? 0); [now split | ].
  rewrite binary64_div_opp_l, binary64_eqb_opp_zero.
  destruct (_ =? 0); cbn [bind]; [now split | ].
  now rewrite binary64_div_opp_r.
Qed.

End Binary64Odd.

(** ** No negative result from inputs that are not negative *)

Section Binary64NotNegative.

Local Open Scope float_scope.
Local Open Scope py_scope.

(** Rounding keeps the sign it is given, also when the result overflows to an
    infinity or underflows to a zero. *)
Lemma binary_round_aux_not_negative (prec emax : Z) (m e : Z) (l : location) :
  SFltb (binary_round_aux prec emax false m e l) (S754_zero false) = false.
Proof.
  unfold binary_round_aux.
  destruct (shr_fexp prec emax m e l) as [mrs' e'].
  destruct (shr_fexp prec emax _ e' loc_Exact) as [mrs'' e''].
  destruct (shr_m mrs''); try reflexivity.
  destruct (Z.leb e'' (emax - prec)); reflexivity.
Qed.

Lemma SFmul_not_negative (prec emax : Z) (x y : spec_float) :
  SFltb x (S754_zero false) = false -> SFltb y (S754_zero false) = false ->
  SFltb (SFmul prec emax x y) (S754_zero false) = false.
Proof.
  destruct x as [[ | ] | [ | ] | | [ | ] mx ex], y as [[ | ] | [ | ] | | [ | ] my ey];
    cbn; try congruence; intros _ _; apply binary_round_aux_not_negative.
Qed.

Lemma SFdiv_not_negative (prec emax : Z) (x y : spec_float) :
  SFltb x (S754_zero false) = false -> SFltb y (S754_zero false) = false ->
  SFeqb y (S754_zero false) = false ->
  SFltb (SFdiv prec emax x y) (S754_zero false) = false.
Proof.
  destruct x as [[ | ] | [ | ] | | [ | ] mx ex], y as [[ | ] | [ | ] | | [ | ] my ey];
    cbn [SFdiv xorb]; try (cbn; congruence).
  intros _ _ _.
  destruct (SFdiv_core_binary _ _ _ _ _ _) as [[mz ez] lz].
  apply binary_round_aux_not_negative.
Qed.

Lemma binary64_mul_not_negative (x y : float) :
  (x <? 0) = false -> (y <? 0) = false -> (x * y <? 0) = false.
Proof.
  rewrite !ltb_spec, mul_spec. apply SFmul_not_negative.
Qed.

Lemma binary64_div_not_negative (x y : float) :
  (x <? 0) = false -> (y <? 0) = false -> (y =? 0) = false -> (x / y <? 0) = false.
Proof.
  rewrite !ltb_spec, FloatAxioms.eqb_spec, div_spec. apply SFdiv_not_negative.
Qed.

(** On floats, rounding, overflow and underflow never turn the sign: when no
    argument is below zero, each of the six conversions either raises
    [ZeroDivisionError] or returns a float that is not below zero; so does
    [R_cylinder] when [k] and [L] are not below zero and neither is the
    logarithm it is given. *)
Lemma binary64_not_negative_results :
  (forall x t A : float,
     (x <? 0) = false -> (t <? 0) = false -> (A <? 0) = false ->
     Binary64.R_to_k x t A = Raise ZeroDivisionError
     \/ exists k, Binary64.R_to_k x t A = Ok k /\ (k <? 0) = false)
  /\ (forall k t A : float,
        (k <? 0) = false -> (t <? 0) = false -> (A <? 0) = false ->
        Binary64.k_to_R k t A = Raise ZeroDivisionError
        \/ exists r, Binary64.k_to_R k t A = Ok r /\ (r <? 0) = false)
  /\ (forall k : float,
        (k <? 0) = false ->
        Binary64.k_to_thermal_resistivity k = Raise ZeroDivisionError
        \/ exists r, Binary64.k_to_thermal_resistivity k = Ok r /\ (r <? 0) = false)
  /\ (forall r : float,
        (r <? 0) = false ->
        Binary64.thermal_resistivity_to_k r = Raise ZeroDivisionError
        \/ exists k, Binary64.thermal_resistivity_to_k r = Ok k /\ (k <? 0) = false)
  /\ (forall (x : float) (SI : bool),
        (x <? 0) = false ->
        Binary64.R_value_to_k Binary64.scipy x SI = Raise ZeroDivisionError
        \/ exists k, Binary64.R_value_to_k Binary64.scipy x SI = Ok k /\ (k <? 0) = false)
  /\ (forall (k : float) (SI : bool),
        (k <? 0) = false ->
        Binary64.k_to_R_value Binary64.scipy k SI = Raise ZeroDivisionError
        \/ exists v, Binary64.k_to_R_value Binary64.scipy k SI = Ok v /\ (v <? 0) = false)
  /\ (forall (log : float -> result float) (Di Do k L l : float),
        (k <? 0) = false -> (L <? 0) = false ->
        log (Do / Di) = Ok l -> (l <? 0) = false ->
        Binary64.R_cylinder log Di Do k L = Raise ZeroDivisionError
        \/ exists r, Binary64.R_cylinder log Di Do k L = Ok r /\ (r <? 0) = false).
Proof.
  assert (H1 : (1 <? 0) = false) by reflexivity.
  repeat apply conj.
  - intros x t A Hx Ht HA. rewrite binary64_R_to_k_cases.
    destruct (A * x =? 0) eqn:E; [now left | right].
    eexists. split; [reflexivity | ].
    apply binary64_div_not_negative; [exact Ht | | exact E].
    now apply binary64_mul_not_negative.
  - intros k t A Hk Ht HA. rewrite binary64_k_to_R_cases.
    destruct (k * A =? 0) eqn:E; [now left | right].
    eexists. split; [reflexivity | ].
    apply binary64_div_not_negative; [exact Ht | | exact E].
    now apply binary64_mul_not_negative.
  - intros k Hk. rewrite binary64_k_to_thermal_resistivity_cases.
    destruct (k =? 0) eqn:E; [now left | right].
    eexists. split; [reflexivity | ]. now apply binary64_div_not_negative.
  - intros r Hr. rewrite binary64_thermal_resistivity_to_k_cases.
    destruct (r =? 0) eqn:E; [now left | right].
    eexists. split; [reflexivity | ]. now apply binary64_div_not_negative.
  - intros x SI Hx.
    rewrite (binary64_R_value_to_k_cases Binary64.scipy x SI
               scipy_inch_nonzero scipy_Btu_nonzero).
    cbv zeta.
    match goal with |- context [if ?r =? 0 then _ else _] => set (r0 := r) end.
    assert (Hr : (r0 <? 0) = false).
    { subst r0. destruct SI.
      - apply binary64_div_not_negative; [exact Hx | reflexivity | reflexivity].
      - apply binary64_div_not_negative; [ | reflexivity | reflexivity].
        apply binary64_div_not_negative; [ | reflexivity | reflexivity].
        apply binary64_mul_not_negative; [ | reflexivity].
        apply binary64_mul_not_negative; [ | reflexivity].
        apply binary64_mul_not_negative; [exact Hx | reflexivity]. }
    destruct (r0 =? 0) eqn:E; [now left | right].
    eexists. split; [reflexivity | ]. now apply binary64_div_not_negative.
  - intros k SI Hk. rewrite scipy_k_to_R_value_cases.
    destruct (k =? 0) eqn:E; [now left | right].
    eexists. split; [reflexivity | ].
    assert (Hr : (1 / k <? 0) = false) by now apply binary64_div_not_negative.
    destruct SI.
    + apply binary64_mul_not_negative; [exact Hr | reflexivity].
    + apply binary64_div_not_negative; [exact Hr | reflexivity | ].
      exact scipy_imperial_unit_nonzero.
  - intros log Di Do k L l Hk HL Hlog Hl.
    rewrite binary64_R_cylinder_cases, Hlog.
    destruct (Di =? 0); [now left | ].
    destruct (l =? 0) eqn:El; [now left | ].
    destruct (k * 2 * Binary64.pi * L / l =? 0) eqn:Eh; [now left | right].
    eexists. split; [reflexivity | ].
    apply binary64_div_not_negative; [exact H1 | | exact Eh].
    apply binary64_div_not_negative; [ | exact Hl | exact El].
    apply binary64_mul_not_negative; [ | exact HL].
    apply binary64_mul_not_negative; [ | reflexivity].
    apply binary64_mul_not_negative; [exact Hk | reflexivity].
Qed.

Lemma binary64_not_negative_results_witness :
  ((0.05 <? 0) = false /\ (0.025 <? 0) = false /\ (1 <? 0) = false)
  /\ (Binary64.R_to_k 0.05 0.025 1 = Raise ZeroDivisionError
      \/ exists k, Binary64.R_to_k 0.05 0.025 1 = Ok k /\ (k <? 0) = false).
Proof.
  assert (Hx : (0.05 <? 0) = false) by reflexivity.
  assert (Ht : (0.025 <? 0) = false) by reflexivity.
  assert (HA : (1 <? 0) = false) by reflexivity.
  split; [repeat split; assumption
         | exact (proj1 binary64_not_negative_results 0.05 0.025 1 Hx Ht HA)].
Defined.

End Binary64NotNegative.

(** ** NaN arguments *)

Section Binary64NaN.

Local Open Scope float_scope.
Local Open Scope py_scope.

Lemma binary64_div_nan_l (x : float) : nan / x = nan.
Proof.
  apply Prim2SF_inj. rewrite div_spec.
  change (Prim2SF nan) with S754_nan. reflexivity.
Qed.

Lemma binary64_mul_nan_l (x : float) : nan * x = nan.
Proof.
  now rewrite binary64_mul_comm, binary64_mul_nan_r.
Qed.

(** On floats a NaN argument raises nothing of its own: a NaN resistance,
    conductivity, area, resistivity or R-value comes back as NaN, and so does
    a NaN thickness when the divisor is not a zero; in [R_cylinder] a NaN
    conductivity or length comes back as NaN whenever the division by the
    logarithm goes through. *)
Lemma binary64_nan_propagates :
  (forall x t A : float,
     Binary64.R_to_k nan t A = Ok nan /\ Binary64.R_to_k x t nan = Ok nan
     /\ Binary64.k_to_R nan t A = Ok nan /\ Binary64.k_to_R x t nan = Ok nan)
  /\ (forall x t A : float,
        (A * x =? 0) = false ->
        Binary64.R_to_k x nan A = Ok nan /\ Binary64.k_to_R x nan A = Ok nan)
  /\ Binary64.k_to_thermal_resistivity nan = Ok nan
  /\ Binary64.thermal_resistivity_to_k nan = Ok nan
  /\ (forall SI : bool,
        Binary64.R_value_to_k Binary64.scipy nan SI = Ok nan
        /\ Binary64.k_to_R_value Binary64.scipy nan SI = Ok nan)
  /\ (forall (log : float -> result float) (Di Do k L l : float),
        (Di =? 0) = false -> log (Do / Di) = Ok l -> (l =? 0) = false ->
        Binary64.R_cylinder log Di Do nan L = Ok nan
        /\ Binary64.R_cylinder log Di Do k nan = Ok nan).
Proof.
  assert (Hn : (nan =? 0) = false) by reflexivity.
  repeat apply conj.
  - intros x t A. rewrite !binary64_R_to_k_cases, !binary64_k_to_R_cases.
    rewrite !binary64_mul_nan_r, !binary64_mul_nan_l, Hn, !binary64_div_nan_r.
    repeat split.
  - intros x t A H. rewrite binary64_R_to_k_cases, binary64_k_to_R_cases.
    rewrite (binary64_mul_comm x A), H, binary64_div_nan_l. now split.
  - reflexivity.
  - reflexivity.
  - intros SI. now destruct SI.
  - intros log Di Do k L l HDi Hlog Hl.
    rewrite !binary64_R_cylinder_cases, HDi, Hlog, Hl.
    rewrite binary64_mul_nan_r, !binary64_mul_nan_l, binary64_div_nan_l, Hn.
    rewrite binary64_div_nan_r. now split.
Qed.

Lemma binary64_nan_propagates_witness :
  (1 * 0.05 =? 0) = false
  /\ Binary64.R_to_k 0.05 nan 1 = Ok nan /\ Binary64.k_to_R 0.05 nan 1 = Ok nan.
Proof.
  assert (H : (1 * 0.05 =? 0) = false) by reflexivity.
  pose proof binary64_nan_propagates as (_ & Ht & _).
  split; [exact H | exact (Ht 0.05 nan 1 H)].
Defined.

End Binary64NaN.

(** ** A resistivity or conductivity that is zero *)

Section Binary64ZeroResult.

Local Open Scope float_scope.
Local Open Scope py_scope.

(** On floats the two reciprocal conversions return a zero only for an
    infinite argument: whatever is not a zero has its rounded reciprocal
    returned, and that is a zero exactly when the argument is [inf] or
    [-inf].  So what they return for a finite argument can always be
    converted back. *)
Lemma binary64_resistivity_zero_iff (x : float) :
  (x =? 0) = false ->
  exists r : float,
    Binary64.k_to_thermal_resistivity x = Ok r
    /\ Binary64.thermal_resistivity_to_k x = Ok r
    /\ ((r =? 0) = true <-> is_infinity x = true).
Proof.
  intros Hx. exists (1 / x).
  rewrite binary64_k_to_thermal_resistivity_cases,
    binary64_thermal_resistivity_to_k_cases, Hx.
  repeat split; now apply binary64_reciprocal_zero_iff.
Qed.

Lemma binary64_resistivity_zero_iff_witness :
  (0.25 =? 0) = false
  /\ exists r : float,
       Binary64.k_to_thermal_resistivity 0.25 = Ok r
       /\ Binary64.thermal_resistivity_to_k 0.25 = Ok r
       /\ ((r =? 0) = true <-> is_infinity 0.25 = true).
Proof.
  assert (H : (0.25 =? 0) = false) by reflexivity.
  split; [exact H | exact (binary64_resistivity_zero_iff 0.25 H)].
Defined.

End Binary64ZeroResult.
